(** * whisper_marko: load a speech model, transcribe one file under a
      deadline, write the transcript

    A shallow embedding of [whisper_marko.py].  The Python functions
    [load_model], [transcribe_audio], [save_transcription] and [main] are
    written as computations over an explicit [World] (file system, keyboard,
    log stream, call trace, wall clock).  The speech engine and the operating
    system are collaborators the program does not implement; they enter as an
    environment [Env] of oracles.

    Conventions.  A path names its file: two paths are the same file exactly
    when they are the same string.  A file holds the characters that were
    written to it, as on a POSIX system, where writing in text mode leaves
    newlines as they are; reading in text mode translates them
    ([universal_newlines]).  Whether a text can be encoded is part of whether
    it can be written ([os_write_error]).  [files] holds the regular files the
    process can reach by the paths an operator may type; the weights cache the
    speech library keeps for itself is not among them.  The clock advances
    only while the program waits for a collaborator, so every duration
    measured here is a lower bound on the real one.  A collaborator is a
    function of its arguments: asked the same twice, it answers the same. *)

From stdpp Require Import gmap strings pretty list.
From Stdlib Require Import ZArith Lia.

Open Scope string_scope.
Open Scope Z_scope.
Open Scope list_scope.

(** ** Python values and exceptions *)

(** The values a result mapping can hold: a [str], or any other object, of
    which only the type name matters here ([file.write] rejects it). *)
Inductive value :=
  | VStr (s : string)
  | VObj (type_name : string).

(** A Python [dict] with string keys. *)
Abbreviation dict := (gmap string value).

(** The exception classes the program can meet.  The first three derive from
    [BaseException] only; every other class derives from [Exception]. *)
Inductive exc_class :=
  | KeyboardInterrupt
  | SystemExit
  | GeneratorExit
  | TimeoutError          (* concurrent.futures.TimeoutError *)
  | KeyError
  | TypeError
  | EOFError
  | OSError
  | OtherException (name : string).

(** An exception object: its class and what [str(e)] prints. *)
Record exn := mkExn { exn_class : exc_class; exn_str : string }.

(** [isinstance(e, Exception)] *)
Definition isinstance_Exception (e : exn) : bool :=
  match exn_class e with
  | KeyboardInterrupt | SystemExit | GeneratorExit => false
  | _ => true
  end.

(** [isinstance(e, TimeoutError)] *)
Definition isinstance_TimeoutError (e : exn) : bool :=
  match exn_class e with
  | TimeoutError => true
  | _ => false
  end.

(** ** The world *)

Inductive level := INFO | ERROR.

(** What the operator does at the prompt: types a line, or presses Ctrl-C. *)
Inductive keystroke :=
  | Line (s : string)
  | Interrupt.

(** Calls that leave the program: to the engine, the terminal and the file
    system.  Logging has its own stream, [log]. *)
Inductive event :=
  | EvLoadModel (model_name : string)
  | EvInput (prompt : string)
  | EvIsFile (path : string) (answer : bool)
  | EvIsFileError (path : string)
  | EvSubmit (audio_path : string)
  | EvOpen (path : string)
  | EvWrite (path : string) (data : string)
  | EvClose (path : string).

(** [files] maps the path of every regular file the process can reach to its
    text; [clock] counts hundredths of a second, the resolution the program
    prints durations at. *)
Record World := mkWorld {
  files : gmap string string;
  stdin : list keystroke;
  log : list (level * string);
  trace : list event;
  clock : Z
}.

Definition set_files (f : gmap string string) (w : World) : World :=
  mkWorld f (stdin w) (log w) (trace w) (clock w).
Definition set_stdin (k : list keystroke) (w : World) : World :=
  mkWorld (files w) k (log w) (trace w) (clock w).
Definition add_log (l : level) (msg : string) (w : World) : World :=
  mkWorld (files w) (stdin w) (log w ++ [(l, msg)]) (trace w) (clock w).
Definition add_event (e : event) (w : World) : World :=
  mkWorld (files w) (stdin w) (log w) (trace w ++ [e]) (clock w).
Definition set_clock (t : Z) (w : World) : World :=
  mkWorld (files w) (stdin w) (log w) (trace w) t.

(** ** Computations: return, raise, or never come back *)

Inductive Outcome (A : Type) :=
  | Returns (a : A) (w : World)
  | Raises (e : exn) (w : World)
  | Hangs (w : World).
Arguments Returns {A} a w.
Arguments Raises {A} e w.
Arguments Hangs {A} w.

Definition world_of {A} (o : Outcome A) : World :=
  match o with
  | Returns _ w | Raises _ w | Hangs w => w
  end.

Definition Py (A : Type) : Type := World -> Outcome A.

Definition ret {A} (a : A) : Py A := fun w => Returns a w.

Definition bind {A B} (m : Py A) (k : A -> Py B) : Py B := fun w =>
  match m w with
  | Returns a w' => k a w'
  | Raises e w' => Raises e w'
  | Hangs w' => Hangs w'
  end.

Definition raise {A} (e : exn) : Py A := fun w => Raises e w.

(** [try: m  except BaseException as e: handler e]; the handlers below test
    the class themselves and re-raise what they do not match. *)
Definition try_except {A} (m : Py A) (handler : exn -> Py A) : Py A := fun w =>
  match m w with
  | Raises e w' => handler e w'
  | o => o
  end.

(** The exit half of a [with] statement: [cleanup] runs when the body returns
    and when it raises, and the body's outcome is kept unless the cleanup
    itself raises or does not come back. *)
Definition on_exit {A} (body : Py A) (cleanup : Py unit) : Py A := fun w =>
  match body w with
  | Returns a w1 =>
      match cleanup w1 with
      | Returns _ w2 => Returns a w2
      | Raises e w2 => Raises e w2
      | Hangs w2 => Hangs w2
      end
  | Raises e w1 =>
      match cleanup w1 with
      | Returns _ w2 => Raises e w2
      | Raises e' w2 => Raises e' w2
      | Hangs w2 => Hangs w2
      end
  | Hangs w1 => Hangs w1
  end.

Declare Scope py_scope.
Delimit Scope py_scope with py.
Notation "x <- m ;; k" := (bind m (fun x => k))
  (at level 100, m at next level, right associativity) : py_scope.
Notation "m ;;; k" := (bind m (fun _ => k))
  (at level 100, right associativity) : py_scope.
Open Scope py_scope.

(** ** Collaborators *)

(** How a call into a collaborator ends: after [d] hundredths of a second
    with an exception or a value, or never. *)
Inductive run (A : Type) :=
  | Finishes (d : N) (r : exn + A)
  | NeverFinishes.
Arguments Finishes {A} d r.
Arguments NeverFinishes {A}.

(** The engine instance: an object with one method, [transcribe], which
    reads the audio at a path ([None] when no regular file is there). *)
Record Model := mkModel {
  transcribe : string -> option string -> run dict
}.

(** Everything outside the program: [whisper.load_model], and whether the
    operating system lets a file be opened for writing and written. A failed
    write reports how much of the data reached the file.  [os_stat_error]
    says, for a path at which the process reaches no regular file, whether
    looking it up fails with an [OSError] other than "no such file" (name too
    long, permission denied), and with which message. *)
Record Env := mkEnv {
  whisper_load_model : string -> run Model;
  os_open_error : string -> option exn;
  os_write_error : string -> string -> option (exn * string);
  os_stat_error : string -> option string
}.

(** ** Library calls *)

Definition logging_info (msg : string) : Py unit := fun w =>
  Returns tt (add_log INFO msg w).

Definition logging_error (msg : string) : Py unit := fun w =>
  Returns tt (add_log ERROR msg w).

Definition time_time : Py Z := fun w => Returns (clock w) w.

(** [f"{x:.2f}"] of a duration of [cs] hundredths of a second. *)
Definition fmt_2f (cs : Z) : string :=
  pretty (cs / 100) +:+ "." +:+
  (if cs mod 100 <? 10 then "0" else "") +:+ pretty (cs mod 100).

(** A blocking call in the calling thread. *)
Definition call {A} (r : run A) : Py A := fun w =>
  match r with
  | Finishes d (inr a) => Returns a (set_clock (clock w + Z.of_N d) w)
  | Finishes d (inl e) => Raises e (set_clock (clock w + Z.of_N d) w)
  | NeverFinishes => Hangs w
  end.

(** [input(prompt)]: end of input raises [EOFError], Ctrl-C raises
    [KeyboardInterrupt]. *)
Definition input (prompt : string) : Py string := fun w =>
  let w1 := add_event (EvInput prompt) w in
  match stdin w with
  | [] => Raises (mkExn EOFError "EOF when reading a line") w1
  | Line s :: rest => Returns s (set_stdin rest w1)
  | Interrupt :: rest => Raises (mkExn KeyboardInterrupt "") (set_stdin rest w1)
  end.

(** [Path(path).is_file()]: true for a regular file, false when there is
    none (the lookup's ENOENT, ENOTDIR, EBADF and ELOOP are swallowed by
    pathlib); any other [OSError] of the lookup is raised to the caller. *)
Definition Path_is_file (env : Env) (path : string) : Py bool := fun w =>
  match files w !! path with
  | Some _ => Returns true (add_event (EvIsFile path true) w)
  | None =>
      match os_stat_error env path with
      | Some msg => Raises (mkExn OSError msg) (add_event (EvIsFileError path) w)
      | None => Returns false (add_event (EvIsFile path false) w)
      end
  end.

(** [result[key]] *)
Definition dict_getitem (d : dict) (key : string) : Py value :=
  match d !! key with
  | Some v => ret v
  | None => raise (mkExn KeyError ("'" +:+ key +:+ "'"))
  end.

(** [open(path, 'w')]: the file at [path] is created or truncated as soon as
    the open succeeds.  The handle is the path. *)
Definition builtin_open_w (env : Env) (path : string) : Py string := fun w =>
  let w1 := add_event (EvOpen path) w in
  match os_open_error env path with
  | Some e => Raises e w1
  | None => Returns path (set_files (<[path := ""]> (files w)) w1)
  end.

(** [file.write(v)]: appends at the end of what the handle has written. *)
Definition file_write (env : Env) (file : string) (v : value) : Py unit := fun w =>
  match v with
  | VObj ty =>
      Raises (mkExn TypeError ("write() argument must be str, not " +:+ ty)) w
  | VStr s =>
      let old := default "" (files w !! file) in
      let w1 := add_event (EvWrite file s) w in
      match os_write_error env file s with
      | Some (e, written) =>
          Raises e (set_files (<[file := old +:+ written]> (files w)) w1)
      | None => Returns tt (set_files (<[file := old +:+ s]> (files w)) w1)
      end
  end.

(** [file.__exit__] *)
Definition file_close (file : string) : Py unit := fun w =>
  Returns tt (add_event (EvClose file) w).

(** [whisper.load_model(model_name)], a blocking call.  What the library
    does to its own weights cache is outside [files]. *)
Definition whisper_load (env : Env) (model_name : string) : Py Model := fun w =>
  call (whisper_load_model env model_name) (add_event (EvLoadModel model_name) w).

(** A [concurrent.futures.Future]: when its job was handed to a worker, and
    how the job ends. *)
Record Future := mkFuture { submitted_at : Z; job : run dict }.

(** [executor.submit(model.transcribe, audio_path)]: returns at once; the
    worker runs on its own. *)
Definition executor_submit (model : Model) (audio_path : string) : Py Future :=
  fun w =>
    Returns (mkFuture (clock w) (transcribe model audio_path (files w !! audio_path)))
            (add_event (EvSubmit audio_path) w).

(** [future.result(timeout=timeout)]: waits for the worker for at most
    [timeout] seconds; hands over the job's value or exception when the job is
    done by then, and raises [TimeoutError] otherwise.  The worker is not
    stopped.  The timeouts meant are those the platform can wait for (up to
    [threading.TIMEOUT_MAX], some 292 years); [main] passes 300. *)
Definition future_result (future : Future) (timeout : Z) : Py dict := fun w =>
  let deadline := clock w + Z.max 0 (100 * timeout) in
  match job future with
  | Finishes d r =>
      let done := submitted_at future + Z.of_N d in
      if done <=? deadline then
        let w1 := set_clock (Z.max (clock w) done) w in
        match r with
        | inr result => Returns result w1
        | inl e => Raises e w1
        end
      else Raises (mkExn TimeoutError "") (set_clock deadline w)
  | NeverFinishes => Raises (mkExn TimeoutError "") (set_clock deadline w)
  end.

(** [ThreadPoolExecutor.__exit__], which is [shutdown(wait=True)]: joins the
    pool's worker, however long the job still takes. *)
Definition executor_shutdown_wait (future : Future) : Py unit := fun w =>
  match job future with
  | Finishes d _ =>
      Returns tt (set_clock (Z.max (clock w) (submitted_at future + Z.of_N d)) w)
  | NeverFinishes => Hangs w
  end.

(** ** The program *)

Section Program.

Context (env : Env).

Definition load_model (model_name : string) : Py Model :=
  start_time <- time_time;;
  model <- try_except
    (model <- whisper_load env model_name;;
     logging_info ("Model '" +:+ model_name +:+ "' loaded successfully.");;;
     ret model)
    (fun e =>
       if isinstance_Exception e then
         logging_error ("Failed to load the model '" +:+ model_name +:+
                        "'. Error: " +:+ exn_str e);;;
         raise e
       else raise e);;
  end_time <- time_time;;
  logging_info ("Time taken to load model: " +:+
                fmt_2f (end_time - start_time) +:+ " seconds");;;
  ret model.

(** The [with ThreadPoolExecutor() as executor:] block.  The pool has one
    worker, the one [submit] starts; leaving the block, by return or by
    exception, joins it. *)
Definition transcribe_audio (model : Model) (audio_path : string) (timeout : Z)
  : Py dict :=
  start_time <- time_time;;
  result <- try_except
    (future <- executor_submit model audio_path;;
     on_exit
       (result <- future_result future timeout;;
        logging_info "Transcription completed successfully.";;;
        ret result)
       (executor_shutdown_wait future))
    (fun e =>
       if isinstance_TimeoutError e then
         logging_error ("Transcription timed out after " +:+ pretty timeout +:+
                        " seconds.");;;
         raise e
       else if isinstance_Exception e then
         logging_error ("Transcription failed. Error: " +:+ exn_str e);;;
         raise e
       else raise e);;
  end_time <- time_time;;
  logging_info ("Time taken to transcribe audio: " +:+
                fmt_2f (end_time - start_time) +:+ " seconds");;;
  ret result.

(** The call with [timeout] left out: [timeout: int = 300]. *)
Definition transcribe_audio_default (model : Model) (audio_path : string)
  : Py dict :=
  transcribe_audio model audio_path 300.

Definition save_transcription (result : dict) (output_file : string) : Py unit :=
  try_except
    (file <- builtin_open_w env output_file;;
     on_exit
       (text <- dict_getitem result "text";;
        file_write env file text)
       (file_close file);;;
     logging_info ("Transcription saved to '" +:+ output_file +:+ "'."))
    (fun e =>
       if isinstance_Exception e then
         logging_error ("Failed to save transcription to '" +:+ output_file +:+
                        "'. Error: " +:+ exn_str e);;;
         raise e
       else raise e).

(** The body of the [try] in [main]. *)
Definition main_try : Py unit :=
  let model_name := "medium" in
  model <- load_model model_name;;
  audio_path <- input "Enter the path to your audio file: ";;
  is_file <- Path_is_file env audio_path;;
  if negb is_file then
    logging_error ("Audio file '" +:+ audio_path +:+ "' does not exist.")
  else
    result <- transcribe_audio_default model audio_path;;
    let output_file := "outputfile.txt" in
    save_transcription result output_file.

Definition main : Py unit :=
  try_except main_try
    (fun e =>
       if isinstance_Exception e then
         logging_error ("An error occurred: " +:+ exn_str e)
       else raise e).

End Program.

(** ** Observations on traces and logs *)

Definition is_load (e : event) : bool :=
  match e with EvLoadModel _ => true | _ => false end.

(** The path was checked and found to be a regular file. *)
Definition is_validated (e : event) : bool :=
  match e with EvIsFile _ true => true | _ => false end.

(** The prompt, or the check of the path. *)
Definition is_prompt_or_check (e : event) : bool :=
  match e with
  | EvInput _ | EvIsFile _ _ | EvIsFileError _ => true
  | _ => false
  end.

(** A call of the Runner or of the Writer. *)
Definition is_run_or_write (e : event) : bool :=
  match e with
  | EvSubmit _ | EvOpen _ | EvWrite _ _ | EvClose _ => true
  | _ => false
  end.

Definition is_stage (e : event) : bool := is_load e || is_run_or_write e.

(** [precedes P Q l]: every event of [l] that satisfies [Q] comes after some
    event that satisfies [P]. *)
Fixpoint precedes (P Q : event -> bool) (l : list event) : bool :=
  match l with
  | [] => true
  | e :: l' => if P e then true else negb (Q e) && precedes P Q l'
  end.



(** ** Relations between the world before and the world after *)

(** [keeps R m]: however [m] ends, the world it leaves is [R]-related to the
    one it started in. *)
Definition keeps (R : World -> World -> Prop) {A} (m : Py A) : Prop :=
  forall w, R w (world_of (m w)).

(** Nothing on disk and nothing of the pending keyboard input has changed. *)
Definition quiet (w w' : World) : Prop :=
  files w' = files w /\ stdin w' = stdin w.

(** The same, except for the file at [p]. *)
Definition quiet_but (p : string) (w w' : World) : Prop :=
  (forall q, q <> p -> files w' !! q = files w !! q) /\ stdin w' = stdin w.

(** An event on a file is an event on the file at [p]. *)
Definition file_event_at (p : string) (e : event) : Prop :=
  match e with
  | EvOpen q | EvWrite q _ | EvClose q => q = p
  | _ => True
  end.

(** The calls made since [w] opened, wrote and closed no file but [p]. *)
Definition opens_only (p : string) (w w' : World) : Prop :=
  exists evs, trace w' = trace w ++ evs /\ Forall (file_event_at p) evs.

(** ** Reading a file back *)

Definition CR : Ascii.ascii := Ascii.ascii_of_nat 13.
Definition LF : Ascii.ascii := Ascii.ascii_of_nat 10.

(** What text mode does to the characters of a file on reading: each
    carriage return, with the line feed that follows it if there is one,
    becomes one line feed. *)
Fixpoint universal_newlines (s : string) : string :=
  match s with
  | EmptyString => EmptyString
  | String c rest =>
      if Ascii.eqb c CR then
        match rest with
        | String c' rest' =>
            if Ascii.eqb c' LF then String LF (universal_newlines rest')
            else String LF (universal_newlines rest)
        | EmptyString => String LF EmptyString
        end
      else String c (universal_newlines rest)
  end.

(** No carriage return occurs in [s]. *)
Fixpoint no_CR (s : string) : bool :=
  match s with
  | EmptyString => true
  | String c rest => negb (Ascii.eqb c CR) && no_CR rest
  end.

(** [open(path).read()], the reader's side of the round trip. *)
Definition read_text (path : string) : Py string := fun w =>
  match files w !! path with
  | Some s => Returns (universal_newlines s) w
  | None => Raises (mkExn OSError ("No such file or directory: '" +:+ path +:+ "'")) w
  end.

(** ** Sample collaborators and worlds *)

Module Sample.

(** An engine that needs 12.34 s and hears "hello". *)
Definition engine : Model :=
  mkModel (fun _ _ => Finishes 1234 (inr {[ "text" := VStr "hello";
                                            "language" := VStr "en" ]})).

(** An engine that needs 1000 s for the same. *)
Definition slow_engine : Model :=
  mkModel (fun _ _ => Finishes 100000 (inr {[ "text" := VStr "hello" ]})).


(** Loading takes 2.5 s; every file can be opened and written. *)
Definition env : Env :=
  mkEnv (fun _ => Finishes 250 (inr engine)) (fun _ => None) (fun _ _ => None)
        (fun _ => None).

(** The weights are not there: loading fails after 0.1 s. *)
Definition env_no_weights : Env :=
  mkEnv (fun _ => Finishes 10 (inl (mkExn OSError "no weights")))
        (fun _ => None) (fun _ _ => None)
        (fun _ => None).

(** A fresh process next to [a.wav] and an older [outputfile.txt]; the
    operator will type [a.wav], twice if asked twice. *)
Definition world : World :=
  mkWorld {[ "a.wav" := "RIFF"; "outputfile.txt" := "old text" ]}
          [Line "a.wav"; Line "a.wav"] [] [] 0.

(** The same, with an operator who types the name of a file that is not
    there. *)
Definition world_typo : World :=
  mkWorld {[ "a.wav" := "RIFF"; "outputfile.txt" := "old text" ]}
          [Line "b.wav"] [] [] 0.

(** The same, with an operator who presses Ctrl-C at the prompt. *)
Definition world_interrupt : World :=
  mkWorld {[ "a.wav" := "RIFF"; "outputfile.txt" := "old text" ]}
          [Interrupt] [] [] 0.

(** An engine that never comes back. *)
Definition stuck_engine : Model := mkModel (fun _ _ => NeverFinishes).

(** An engine whose result has no "text". *)
Definition textless_engine : Model :=
  mkModel (fun _ _ => Finishes 1234 (inr {[ "language" := VStr "en" ]})).

(** An engine whose "text" is a list of segments, not a string. *)
Definition listy_engine : Model :=
  mkModel (fun _ _ => Finishes 1234 (inr {[ "text" := VObj "list" ]})).

Definition env_slow : Env :=
  mkEnv (fun _ => Finishes 250 (inr slow_engine)) (fun _ => None) (fun _ _ => None)
        (fun _ => None).

Definition env_stuck : Env :=
  mkEnv (fun _ => Finishes 250 (inr stuck_engine)) (fun _ => None) (fun _ _ => None)
        (fun _ => None).

Definition env_textless : Env :=
  mkEnv (fun _ => Finishes 250 (inr textless_engine)) (fun _ => None)
        (fun _ _ => None) (fun _ => None).

(** A directory in which nothing may be created or overwritten. *)
Definition env_read_only : Env :=
  mkEnv (fun _ => Finishes 250 (inr engine))
        (fun _ => Some (mkExn OSError "Permission denied")) (fun _ _ => None)
        (fun _ => None).

(** The operator presses Ctrl-C while the model is loading. *)
Definition env_interrupted : Env :=
  mkEnv (fun _ => Finishes 100 (inl (mkExn KeyboardInterrupt "")))
        (fun _ => None) (fun _ _ => None)
        (fun _ => None).

(** Standard input is closed. *)
Definition world_eof : World :=
  mkWorld {[ "a.wav" := "RIFF"; "outputfile.txt" := "old text" ]} [] [] [] 0.

(** A file system that refuses names of more than 255 characters. *)
Definition env_name_max : Env :=
  mkEnv (fun _ => Finishes 250 (inr engine)) (fun _ => None) (fun _ _ => None)
        (fun p => if (255 <? String.length p)%nat
                  then Some ("[Errno 36] File name too long: '" +:+ p +:+ "'")
                  else None).

(** A name of 300 characters. *)
Definition long_name : string := String.concat "" (replicate 300 "a").

(** The operator types the long name. *)
Definition world_long_name : World :=
  mkWorld {[ "a.wav" := "RIFF"; "outputfile.txt" := "old text" ]}
          [Line long_name] [] [] 0.

(** A transcript with a bare carriage return in it. *)
Definition text_with_CR : string := "a" +:+ String CR "b".

End Sample.

(** ** Proof tools *)

Ltac py_unfold :=
  unfold bind, ret, raise, try_except, on_exit, logging_info, logging_error,
    time_time, call, dict_getitem in *.

Ltac ld_unfold :=
  unfold load_model, whisper_load; py_unfold; simpl.

Ltac tr_unfold :=
  unfold transcribe_audio_default, transcribe_audio, executor_submit,
    future_result, executor_shutdown_wait; py_unfold; simpl.

Ltac sv_unfold :=
  unfold save_transcription, builtin_open_w, file_write, file_close;
  py_unfold; simpl.

Lemma insert_trunc_write (fs : gmap string string) (p t : string) :
  <[p := default "" (<[p := ""]> fs !! p) +:+ t]> (<[p := ""]> fs) = <[p := t]> fs.
Proof.
  rewrite lookup_insert_eq. simpl. apply insert_insert_eq.
Qed.

(** Occurrences in formatted messages. *)






(** Text without carriage returns is read as it is. *)
Lemma universal_newlines_no_CR (s : string) :
  no_CR s = true -> universal_newlines s = s.
Proof.
  induction s as [|c s IH]; [reflexivity|].
  simpl. intros [Hc Hs]%andb_true_iff.
  apply negb_true_iff in Hc. rewrite Hc. by rewrite IH.
Qed.

(** ** The Model Loader, case by case *)

Lemma load_model_ok (env : Env) (model_name : string) (w : World)
  (d : N) (model : Model) :
  whisper_load_model env model_name = Finishes d (inr model) ->
  exists w',
    load_model env model_name w = Returns model w' /\
    files w' = files w /\ stdin w' = stdin w /\
    trace w' = trace w ++ [EvLoadModel model_name] /\
    clock w' = clock w + Z.of_N d /\
    log w' = log w ++
      [(INFO, "Model '" +:+ model_name +:+ "' loaded successfully.");
       (INFO, "Time taken to load model: " +:+ fmt_2f (Z.of_N d) +:+ " seconds")].
Proof.
  intros Hload. ld_unfold. rewrite Hload. simpl.
  eexists. split; [reflexivity|]. simpl. repeat split.
  rewrite <- app_assoc. simpl. repeat f_equal. lia.
Qed.

Lemma load_model_fails (env : Env) (model_name : string) (w : World)
  (d : N) (e : exn) :
  whisper_load_model env model_name = Finishes d (inl e) ->
  exists w',
    load_model env model_name w = Raises e w' /\
    files w' = files w /\ stdin w' = stdin w /\
    trace w' = trace w ++ [EvLoadModel model_name] /\
    clock w' = clock w + Z.of_N d /\
    log w' = log w ++
      (if isinstance_Exception e then
         [(ERROR, "Failed to load the model '" +:+ model_name +:+
                  "'. Error: " +:+ exn_str e)]
       else []).
Proof.
  intros Hload. ld_unfold. rewrite Hload. simpl.
  destruct (isinstance_Exception e); simpl;
    (eexists; split; [reflexivity|]); simpl; repeat split;
    by rewrite ?app_nil_r.
Qed.

Lemma load_model_never (env : Env) (model_name : string) (w : World) :
  whisper_load_model env model_name = NeverFinishes ->
  exists w',
    load_model env model_name w = Hangs w' /\
    files w' = files w /\ stdin w' = stdin w /\
    trace w' = trace w ++ [EvLoadModel model_name] /\
    log w' = log w.
Proof.
  intros Hload. ld_unfold. rewrite Hload. simpl.
  eexists. split; [reflexivity|]. simpl. repeat split.
Qed.


Lemma load_model_returns_inv (env : Env) (model_name : string) (w w' : World)
  (model : Model) :
  load_model env model_name w = Returns model w' ->
  exists d, whisper_load_model env model_name = Finishes d (inr model).
Proof.
  destruct (whisper_load_model env model_name) as [d [e|m]|] eqn:Hload.
  - destruct (load_model_fails env model_name w d e Hload) as (w1 & -> & _).
    discriminate.
  - destruct (load_model_ok env model_name w d m Hload) as (w1 & -> & _).
    intros [= -> _]. eauto.
  - destruct (load_model_never env model_name w Hload) as (w1 & -> & _).
    discriminate.
Qed.

(** In every case the Loader's only call out of the program is the load. *)
Lemma load_model_trace (env : Env) (model_name : string) (w : World) :
  trace (world_of (load_model env model_name w))
  = trace w ++ [EvLoadModel model_name].
Proof.
  destruct (whisper_load_model env model_name) as [d [e|m]|] eqn:Hload.
  - destruct (load_model_fails env model_name w d e Hload)
      as (w1 & -> & _ & _ & Ht & _); exact Ht.
  - destruct (load_model_ok env model_name w d m Hload)
      as (w1 & -> & _ & _ & Ht & _); exact Ht.
  - destruct (load_model_never env model_name w Hload)
      as (w1 & -> & _ & _ & Ht & _); exact Ht.
Qed.

(** ** The Transcription Runner, case by case *)

Lemma transcribe_audio_in_time
  (model : Model) (audio_path : string) (timeout : Z) (w : World)
  (d : N) (r : dict) :
  transcribe model audio_path (files w !! audio_path) = Finishes d (inr r) ->
  Z.of_N d <= Z.max 0 (100 * timeout) ->
  exists w',
    transcribe_audio model audio_path timeout w = Returns r w' /\
    files w' = files w /\ stdin w' = stdin w /\
    trace w' = trace w ++ [EvSubmit audio_path] /\
    clock w' = clock w + Z.of_N d /\
    log w' = log w ++
      [(INFO, "Transcription completed successfully.");
       (INFO, "Time taken to transcribe audio: " +:+ fmt_2f (Z.of_N d) +:+ " seconds")].
Proof.
  intros Hjob Hd. tr_unfold. rewrite Hjob.
  destruct (Z.leb_spec (clock w + Z.of_N d) (clock w + Z.max 0 (100 * timeout)));
    [|lia].
  simpl. eexists. split; [reflexivity|]. simpl.
  repeat split.
  - lia.
  - rewrite <- app_assoc. simpl. repeat f_equal. lia.
Qed.

Lemma transcribe_audio_engine_fails
  (model : Model) (audio_path : string) (timeout : Z) (w : World)
  (d : N) (e : exn) :
  transcribe model audio_path (files w !! audio_path) = Finishes d (inl e) ->
  Z.of_N d <= Z.max 0 (100 * timeout) ->
  exists w',
    transcribe_audio model audio_path timeout w = Raises e w' /\
    files w' = files w /\ stdin w' = stdin w /\
    trace w' = trace w ++ [EvSubmit audio_path] /\
    clock w' = clock w + Z.of_N d /\
    log w' = log w ++
      (if isinstance_TimeoutError e then
         [(ERROR, "Transcription timed out after " +:+ pretty timeout +:+ " seconds.")]
       else if isinstance_Exception e then
         [(ERROR, "Transcription failed. Error: " +:+ exn_str e)]
       else []).
Proof.
  intros Hjob Hd. tr_unfold. rewrite Hjob.
  destruct (Z.leb_spec (clock w + Z.of_N d) (clock w + Z.max 0 (100 * timeout)));
    [|lia].
  simpl.
  destruct (isinstance_TimeoutError e); [|destruct (isinstance_Exception e)];
    simpl; (eexists; split; [reflexivity|]); simpl;
    repeat split; try lia; by rewrite ?app_nil_r.
Qed.

Lemma transcribe_audio_late
  (model : Model) (audio_path : string) (timeout : Z) (w : World)
  (d : N) (r : exn + dict) :
  transcribe model audio_path (files w !! audio_path) = Finishes d r ->
  Z.max 0 (100 * timeout) < Z.of_N d ->
  exists w',
    transcribe_audio model audio_path timeout w
    = Raises (mkExn TimeoutError "") w' /\
    files w' = files w /\ stdin w' = stdin w /\
    trace w' = trace w ++ [EvSubmit audio_path] /\
    clock w' = clock w + Z.of_N d /\
    log w' = log w ++
      [(ERROR, "Transcription timed out after " +:+ pretty timeout +:+ " seconds.")].
Proof.
  intros Hjob Hd. tr_unfold. rewrite Hjob.
  destruct (Z.leb_spec (clock w + Z.of_N d) (clock w + Z.max 0 (100 * timeout)));
    [lia|].
  simpl. eexists. split; [reflexivity|]. simpl.
  repeat split. lia.
Qed.

Lemma transcribe_audio_never
  (model : Model) (audio_path : string) (timeout : Z) (w : World) :
  transcribe model audio_path (files w !! audio_path) = NeverFinishes ->
  exists w',
    transcribe_audio model audio_path timeout w = Hangs w' /\
    files w' = files w /\ log w' = log w /\
    clock w' = clock w + Z.max 0 (100 * timeout).
Proof.
  intros Hjob. tr_unfold. rewrite Hjob. simpl.
  eexists. split; [reflexivity|]. simpl. repeat split.
Qed.

Lemma transcribe_audio_returns_inv
  (model : Model) (audio_path : string) (timeout : Z) (w w' : World) (r : dict) :
  transcribe_audio model audio_path timeout w = Returns r w' ->
  exists d,
    transcribe model audio_path (files w !! audio_path) = Finishes d (inr r) /\
    Z.of_N d <= Z.max 0 (100 * timeout).
Proof.
  destruct (transcribe model audio_path (files w !! audio_path))
    as [d [e|r']|] eqn:Hjob.
  - destruct (Z.le_gt_cases (Z.of_N d) (Z.max 0 (100 * timeout))) as [Hd|Hd].
    + destruct (transcribe_audio_engine_fails _ _ _ _ _ _ Hjob Hd) as (w1 & -> & _).
      discriminate.
    + destruct (transcribe_audio_late _ _ _ _ _ _ Hjob Hd) as (w1 & -> & _).
      discriminate.
  - destruct (Z.le_gt_cases (Z.of_N d) (Z.max 0 (100 * timeout))) as [Hd|Hd].
    + destruct (transcribe_audio_in_time _ _ _ _ _ _ Hjob Hd) as (w1 & -> & _).
      intros [= -> _]. eauto.
    + destruct (transcribe_audio_late _ _ _ _ _ _ Hjob Hd) as (w1 & -> & _).
      discriminate.
  - destruct (transcribe_audio_never _ _ timeout _ Hjob) as (w1 & -> & _).
    discriminate.
Qed.

(** In every case the Runner's only call out of the program is the submit. *)
Lemma transcribe_audio_trace
  (model : Model) (audio_path : string) (timeout : Z) (w : World) :
  trace (world_of (transcribe_audio model audio_path timeout w))
  = trace w ++ [EvSubmit audio_path].
Proof.
  destruct (transcribe model audio_path (files w !! audio_path))
    as [d [e|r]|] eqn:Hjob.
  - destruct (Z.le_gt_cases (Z.of_N d) (Z.max 0 (100 * timeout))) as [Hd|Hd].
    + destruct (transcribe_audio_engine_fails _ _ _ _ _ _ Hjob Hd)
        as (w1 & -> & _ & _ & Ht & _); exact Ht.
    + destruct (transcribe_audio_late _ _ _ _ _ _ Hjob Hd)
        as (w1 & -> & _ & _ & Ht & _); exact Ht.
  - destruct (Z.le_gt_cases (Z.of_N d) (Z.max 0 (100 * timeout))) as [Hd|Hd].
    + destruct (transcribe_audio_in_time _ _ _ _ _ _ Hjob Hd)
        as (w1 & -> & _ & _ & Ht & _); exact Ht.
    + destruct (transcribe_audio_late _ _ _ _ _ _ Hjob Hd)
        as (w1 & -> & _ & _ & Ht & _); exact Ht.
  - tr_unfold. rewrite Hjob. reflexivity.
Qed.

(** ** The Result Writer, case by case *)

Lemma save_transcription_ok
  (env : Env) (result : dict) (output_file t : string) (w : World) :
  result !! "text" = Some (VStr t) ->
  os_open_error env output_file = None ->
  os_write_error env output_file t = None ->
  exists w',
    save_transcription env result output_file w = Returns tt w' /\
    files w' = <[output_file := t]> (files w) /\
    stdin w' = stdin w /\
    trace w' = trace w ++
      [EvOpen output_file; EvWrite output_file t; EvClose output_file] /\
    clock w' = clock w /\
    log w' = log w ++
      [(INFO, "Transcription saved to '" +:+ output_file +:+ "'.")].
Proof.
  intros Htext Hopen Hwrite. sv_unfold.
  rewrite Hopen. simpl. rewrite Htext. simpl. rewrite Hwrite. simpl.
  eexists. split; [reflexivity|]. simpl.
  rewrite insert_trunc_write. repeat split.
  by rewrite <- !app_assoc.
Qed.

Lemma save_transcription_no_text
  (env : Env) (result : dict) (output_file : string) (w : World) :
  result !! "text" = None ->
  os_open_error env output_file = None ->
  exists w',
    save_transcription env result output_file w
    = Raises (mkExn KeyError "'text'") w' /\
    files w' = <[output_file := ""]> (files w) /\
    stdin w' = stdin w /\
    trace w' = trace w ++ [EvOpen output_file; EvClose output_file] /\
    clock w' = clock w /\
    log w' = log w ++
      [(ERROR, "Failed to save transcription to '" +:+ output_file +:+
               "'. Error: 'text'")].
Proof.
  intros Htext Hopen. sv_unfold.
  rewrite Hopen. simpl. rewrite Htext. simpl.
  eexists. split; [reflexivity|]. simpl. repeat split.
  by rewrite <- app_assoc.
Qed.

(** When the open itself fails, the key is never looked up: the open's error
    is the one raised and the file system is untouched. *)
Lemma save_transcription_open_fails
  (env : Env) (result : dict) (output_file : string) (e : exn) (w : World) :
  os_open_error env output_file = Some e ->
  exists w',
    save_transcription env result output_file w = Raises e w' /\
    files w' = files w.
Proof.
  intros Hopen. sv_unfold. rewrite Hopen. simpl.
  destruct (isinstance_Exception e); eexists; split; reflexivity.
Qed.

(** A write that fails leaves in the file what reached it, and its error is
    the one raised. *)
Lemma save_transcription_write_fails
  (env : Env) (result : dict) (output_file t : string) (e : exn)
  (written : string) (w : World) :
  result !! "text" = Some (VStr t) ->
  os_open_error env output_file = None ->
  os_write_error env output_file t = Some (e, written) ->
  exists w',
    save_transcription env result output_file w = Raises e w' /\
    files w' = <[output_file := written]> (files w).
Proof.
  intros Htext Hopen Hwrite. sv_unfold.
  rewrite Hopen. simpl. rewrite Htext. simpl. rewrite Hwrite. simpl.
  destruct (isinstance_Exception e); (eexists; split; [reflexivity|]); simpl;
    apply insert_trunc_write.
Qed.


(** Whatever makes [save_transcription] raise, the handler has logged it
    (when it is an [Exception]) and the same exception goes on. *)
Lemma save_transcription_raises_log
  (env : Env) (result : dict) (output_file : string) (w w' : World) (e : exn) :
  save_transcription env result output_file w = Raises e w' ->
  log w' = log w ++
    (if isinstance_Exception e then
       [(ERROR, "Failed to save transcription to '" +:+ output_file +:+
                "'. Error: " +:+ exn_str e)]
     else []).
Proof.
  sv_unfold.
  destruct (os_open_error env output_file) as [e0|] eqn:Hopen; simpl.
  { destruct (isinstance_Exception e0) eqn:He0; intros [= <- <-]; rewrite He0;
      simpl; by rewrite ?app_nil_r. }
  destruct (result !! "text") as [[t|ty]|] eqn:Htext; simpl.
  - destruct (os_write_error env output_file t) as [[e0 written]|] eqn:Hwrite; simpl.
    + destruct (isinstance_Exception e0) eqn:He0; intros [= <- <-]; rewrite He0;
        simpl; by rewrite ?app_nil_r.
    + discriminate.
  - intros [= <- <-]. reflexivity.
  - intros [= <- <-]. reflexivity.
Qed.

(** [save_transcription] only adds to the call trace, and never hangs. *)
Lemma save_transcription_trace
  (env : Env) (result : dict) (output_file : string) (w : World) :
  exists evs,
    trace (world_of (save_transcription env result output_file w))
    = trace w ++ EvOpen output_file :: evs.
Proof.
  sv_unfold.
  destruct (os_open_error env output_file) as [e0|] eqn:Hopen; simpl.
  { destruct (isinstance_Exception e0); simpl; by exists []. }
  destruct (result !! "text") as [[t|ty]|] eqn:Htext; simpl.
  - destruct (os_write_error env output_file t) as [[e0 written]|] eqn:Hwrite; simpl.
    + destruct (isinstance_Exception e0); simpl;
        exists [EvWrite output_file t; EvClose output_file];
        by rewrite <- !app_assoc.
    + exists [EvWrite output_file t; EvClose output_file].
      by rewrite <- !app_assoc.
  - exists [EvClose output_file]. by rewrite <- !app_assoc.
  - exists [EvClose output_file]. by rewrite <- !app_assoc.
Qed.

(** ** The Driver, case by case *)

Lemma main_success (env : Env) (w : World) (model : Model) (dl d : N)
  (p audio t : string) (rest : list keystroke) (r : dict) :
  whisper_load_model env "medium" = Finishes dl (inr model) ->
  stdin w = Line p :: rest ->
  files w !! p = Some audio ->
  transcribe model p (Some audio) = Finishes d (inr r) ->
  Z.of_N d <= 30000 ->
  r !! "text" = Some (VStr t) ->
  os_open_error env "outputfile.txt" = None ->
  os_write_error env "outputfile.txt" t = None ->
  exists w',
    main env w = Returns tt w' /\
    files w' = <["outputfile.txt" := t]> (files w) /\
    stdin w' = rest /\
    trace w' = trace w ++
      [EvLoadModel "medium"; EvInput "Enter the path to your audio file: ";
       EvIsFile p true; EvSubmit p; EvOpen "outputfile.txt";
       EvWrite "outputfile.txt" t; EvClose "outputfile.txt"] /\
    clock w' = clock w + Z.of_N dl + Z.of_N d /\
    log w' = log w ++
      [(INFO, "Model 'medium' loaded successfully.");
       (INFO, "Time taken to load model: " +:+ fmt_2f (Z.of_N dl) +:+ " seconds");
       (INFO, "Transcription completed successfully.");
       (INFO, "Time taken to transcribe audio: " +:+ fmt_2f (Z.of_N d) +:+ " seconds");
       (INFO, "Transcription saved to 'outputfile.txt'.")].
Proof.
  intros Hload Hin Hfile Hjob Hd Htext Hopen Hwrite.
  unfold main, main_try.
  unfold try_except, bind at 1.
  destruct (load_model_ok env "medium" w dl model Hload)
    as (w1 & -> & Hf1 & Hs1 & Ht1 & Hc1 & Hl1).
  unfold bind at 1, input. rewrite Hs1, Hin.
  unfold bind at 1, Path_is_file. simpl. rewrite Hf1, Hfile. simpl.
  unfold bind at 1, transcribe_audio_default.
  set (w2 := add_event _ (set_stdin _ _)).
  destruct (transcribe_audio_in_time model p 300 w2 d r)
    as (w3 & -> & Hf3 & Hs3 & Ht3 & Hc3 & Hl3).
  { subst w2. simpl. by rewrite Hf1, Hfile. }
  { lia. }
  destruct (save_transcription_ok env r "outputfile.txt" t w3
              Htext Hopen Hwrite) as (w4 & -> & Hf4 & Hs4 & Ht4 & Hc4 & Hl4).
  exists w4. split; [reflexivity|].
  subst w2. simpl in *.
  repeat split.
  - by rewrite Hf4, Hf3, Hf1.
  - by rewrite Hs4, Hs3.
  - rewrite Ht4, Ht3, Ht1. by rewrite <- !app_assoc.
  - rewrite Hc4, Hc3, Hc1. reflexivity.
  - rewrite Hl4, Hl3, Hl1. by rewrite <- !app_assoc.
Qed.

Lemma main_not_a_file (env : Env) (w : World) (model : Model) (dl : N)
  (p : string) (rest : list keystroke) :
  whisper_load_model env "medium" = Finishes dl (inr model) ->
  stdin w = Line p :: rest ->
  files w !! p = None ->
  os_stat_error env p = None ->
  exists w',
    main env w = Returns tt w' /\
    files w' = files w /\
    stdin w' = rest /\
    trace w' = trace w ++
      [EvLoadModel "medium"; EvInput "Enter the path to your audio file: ";
       EvIsFile p false] /\
    clock w' = clock w + Z.of_N dl /\
    log w' = log w ++
      [(INFO, "Model 'medium' loaded successfully.");
       (INFO, "Time taken to load model: " +:+ fmt_2f (Z.of_N dl) +:+ " seconds");
       (ERROR, "Audio file '" +:+ p +:+ "' does not exist.")].
Proof.
  intros Hload Hin Hfile Hstat.
  unfold main, main_try.
  unfold try_except, bind at 1.
  destruct (load_model_ok env "medium" w dl model Hload)
    as (w1 & -> & Hf1 & Hs1 & Ht1 & Hc1 & Hl1).
  unfold bind at 1, input. rewrite Hs1, Hin.
  unfold bind at 1, Path_is_file. simpl. rewrite Hf1, Hfile, Hstat. simpl.
  unfold logging_error. eexists. split; [reflexivity|]. simpl.
  repeat split.
  - exact Hf1.
  - rewrite Ht1. by rewrite <- !app_assoc.
  - exact Hc1.
  - rewrite Hl1. by rewrite <- !app_assoc.
Qed.

(** The check of the path fails: the [OSError] reaches the handler of
    [main]. *)
Lemma main_check_fails (env : Env) (w : World) (model : Model) (dl : N)
  (p msg : string) (rest : list keystroke) :
  whisper_load_model env "medium" = Finishes dl (inr model) ->
  stdin w = Line p :: rest ->
  files w !! p = None ->
  os_stat_error env p = Some msg ->
  exists w',
    main env w = Returns tt w' /\
    files w' = files w /\
    stdin w' = rest /\
    trace w' = trace w ++
      [EvLoadModel "medium"; EvInput "Enter the path to your audio file: ";
       EvIsFileError p] /\
    clock w' = clock w + Z.of_N dl /\
    log w' = log w ++
      [(INFO, "Model 'medium' loaded successfully.");
       (INFO, "Time taken to load model: " +:+ fmt_2f (Z.of_N dl) +:+ " seconds");
       (ERROR, "An error occurred: " +:+ msg)].
Proof.
  intros Hload Hin Hfile Hstat.
  unfold main, main_try.
  unfold try_except, bind at 1.
  destruct (load_model_ok env "medium" w dl model Hload)
    as (w1 & -> & Hf1 & Hs1 & Ht1 & Hc1 & Hl1).
  unfold bind at 1, input. rewrite Hs1, Hin.
  unfold bind at 1, Path_is_file. simpl. rewrite Hf1, Hfile, Hstat. simpl.
  unfold logging_error. eexists. split; [reflexivity|]. simpl.
  repeat split.
  - exact Hf1.
  - rewrite Ht1. by rewrite <- !app_assoc.
  - exact Hc1.
  - rewrite Hl1. by rewrite <- !app_assoc.
Qed.

(** The top-level handler leaves the call trace alone. *)
Lemma main_keeps_trace (env : Env) (w : World) :
  trace (world_of (main env w)) = trace (world_of (main_try env w)).
Proof.
  unfold main, try_except.
  destruct (main_try env w) as [[] w1|e w1|w1]; try reflexivity.
  by destruct (isinstance_Exception e).
Qed.

Lemma main_try_trace (env : Env) (w : World) :
  exists evs,
    trace (world_of (main_try env w)) = trace w ++ EvLoadModel "medium" :: evs /\
    precedes is_validated is_run_or_write (EvLoadModel "medium" :: evs) = true.
Proof.
  unfold main_try, bind at 1.
  pose proof (load_model_trace env "medium" w) as Ht1.
  destruct (load_model env "medium" w) as [model w1|e w1|w1]; simpl in Ht1.
  2:{ by exists []. }
  2:{ by exists []. }
  unfold bind at 1, input.
  destruct (stdin w1) as [|[p|] rest].
  { exists [EvInput "Enter the path to your audio file: "].
    simpl. rewrite Ht1. by rewrite <- app_assoc. }
  2:{ exists [EvInput "Enter the path to your audio file: "].
      simpl. rewrite Ht1. by rewrite <- app_assoc. }
  unfold bind at 1, Path_is_file.
  destruct (files _ !! p) as [audio|] eqn:Hfile.
  2:{ destruct (os_stat_error env p) as [msg|].
      - exists [EvInput "Enter the path to your audio file: "; EvIsFileError p].
        simpl. rewrite Ht1. by rewrite <- !app_assoc.
      - exists [EvInput "Enter the path to your audio file: "; EvIsFile p false].
        simpl. rewrite Ht1. by rewrite <- !app_assoc. }
  set (w2 := add_event _ (set_stdin _ _)).
  assert (Ht2 : trace w2 = trace w ++
            [EvLoadModel "medium"; EvInput "Enter the path to your audio file: ";
             EvIsFile p true]).
  { subst w2. simpl. rewrite Ht1. by rewrite <- !app_assoc. }
  clearbody w2.
  unfold bind at 1, transcribe_audio_default.
  change (negb true) with false. cbv beta iota.
  pose proof (transcribe_audio_trace model p 300 w2) as Ht3.
  destruct (transcribe_audio model p 300 w2) as [r w3|e w3|w3]; simpl in Ht3.
  2:{ exists [EvInput "Enter the path to your audio file: "; EvIsFile p true;
              EvSubmit p].
      simpl. rewrite Ht3, Ht2. by rewrite <- !app_assoc. }
  2:{ exists [EvInput "Enter the path to your audio file: "; EvIsFile p true;
              EvSubmit p].
      simpl. rewrite Ht3, Ht2. by rewrite <- !app_assoc. }
  destruct (save_transcription_trace env r "outputfile.txt" w3) as (evs & Ht4).
  exists ([EvInput "Enter the path to your audio file: "; EvIsFile p true;
           EvSubmit p; EvOpen "outputfile.txt"] ++ evs).
  split; [|reflexivity].
  cbv zeta. rewrite Ht4, Ht3, Ht2. by rewrite <- !app_assoc.
Qed.

(** ** What a computation keeps *)

#[export] Instance quiet_preorder : PreOrder quiet.
Proof.
  split.
  - by intros w.
  - intros w1 w2 w3 [Hf1 Hs1] [Hf2 Hs2]. split; congruence.
Qed.

#[export] Instance quiet_but_preorder (p : string) : PreOrder (quiet_but p).
Proof.
  split.
  - by intros w.
  - intros w1 w2 w3 [Hf1 Hs1] [Hf2 Hs2]. split; [|congruence].
    intros q Hq. by rewrite Hf2, Hf1.
Qed.

#[export] Instance opens_only_preorder (p : string) : PreOrder (opens_only p).
Proof.
  split.
  - intros w. exists []. by rewrite app_nil_r.
  - intros w1 w2 w3 (evs1 & Ht1 & Hok1) (evs2 & Ht2 & Hok2).
    exists (evs1 ++ evs2). split; [by rewrite Ht2, Ht1, app_assoc|].
    by apply Forall_app.
Qed.

Section Keeps.

Context (R : World -> World -> Prop) `{!PreOrder R}.

Lemma keeps_ret {A} (a : A) : keeps R (ret a).
Proof. intros w. reflexivity. Qed.

Lemma keeps_raise {A} (e : exn) : keeps R (@raise A e).
Proof. intros w. reflexivity. Qed.

Lemma keeps_bind {A B} (m : Py A) (k : A -> Py B) :
  keeps R m -> (forall a, keeps R (k a)) -> keeps R (bind m k).
Proof.
  intros Hm Hk w. unfold bind. specialize (Hm w).
  destruct (m w) as [a w1|e w1|w1]; simpl in Hm; [|exact Hm..].
  etransitivity; [exact Hm|apply Hk].
Qed.

Lemma keeps_try_except {A} (m : Py A) (handler : exn -> Py A) :
  keeps R m -> (forall e, keeps R (handler e)) -> keeps R (try_except m handler).
Proof.
  intros Hm Hh w. unfold try_except. specialize (Hm w).
  destruct (m w) as [a w1|e w1|w1]; simpl in Hm; [exact Hm| |exact Hm].
  etransitivity; [exact Hm|apply Hh].
Qed.

Lemma keeps_on_exit {A} (body : Py A) (cleanup : Py unit) :
  keeps R body -> keeps R cleanup -> keeps R (on_exit body cleanup).
Proof.
  intros Hb Hc w. unfold on_exit. specialize (Hb w).
  destruct (body w) as [a w1|e w1|w1]; simpl in Hb; [| |exact Hb];
    specialize (Hc w1); destruct (cleanup w1); simpl in *;
    etransitivity; eassumption.
Qed.

Lemma keeps_if {A} (b : bool) (m1 m2 : Py A) :
  keeps R m1 -> keeps R m2 -> keeps R (if b then m1 else m2).
Proof. by destruct b. Qed.

End Keeps.

Lemma keeps_weaken (R R' : World -> World -> Prop) {A} (m : Py A) :
  (forall w w', R w w' -> R' w w') -> keeps R m -> keeps R' m.
Proof. intros HR Hm w. apply HR, Hm. Qed.

(** Breaks a program down to its library calls. *)
Ltac keeps_steps :=
  repeat first
    [ simple apply keeps_bind; [apply _| |intros ?]
    | simple apply keeps_try_except; [apply _| |intros ?]
    | simple apply keeps_on_exit; [apply _| |]
    | simple apply keeps_if
    | simple apply keeps_ret; apply _
    | simple apply keeps_raise; apply _ ].

(** A library call, case by case. *)
Ltac keeps_call :=
  intros ?w;
  unfold logging_info, logging_error, time_time, whisper_load, call, input,
    Path_is_file, dict_getitem, ret, raise, builtin_open_w, file_write,
    file_close, executor_submit, future_result, executor_shutdown_wait;
  repeat case_match; simpl.

Lemma load_model_quiet (env : Env) (model_name : string) :
  keeps quiet (load_model env model_name).
Proof.
  unfold load_model. keeps_steps; keeps_call; by split.
Qed.

Lemma transcribe_audio_quiet (model : Model) (audio_path : string) (timeout : Z) :
  keeps quiet (transcribe_audio model audio_path timeout).
Proof.
  unfold transcribe_audio. keeps_steps; keeps_call; by split.
Qed.

Lemma save_transcription_quiet_but (env : Env) (result : dict) (output_file : string) :
  keeps (quiet_but output_file) (save_transcription env result output_file).
Proof.
  intros w. sv_unfold.
  destruct (os_open_error env output_file) as [e0|]; simpl.
  { by destruct (isinstance_Exception e0). }
  destruct (result !! "text") as [[t|ty]|]; simpl.
  - destruct (os_write_error env output_file t) as [[e0 written]|]; simpl;
      [destruct (isinstance_Exception e0)|]; simpl;
      (split; [|reflexivity]); intros q Hq; simpl; by rewrite !lookup_insert_ne.
  - split; [|reflexivity]. intros q Hq. simpl. by rewrite lookup_insert_ne.
  - split; [|reflexivity]. intros q Hq. simpl. by rewrite lookup_insert_ne.
Qed.

(** ** The Driver, stage by stage *)

(** The top-level handler changes nothing but the log. *)
Lemma main_keeps_files (env : Env) (w : World) :
  files (world_of (main env w)) = files (world_of (main_try env w)) /\
  stdin (world_of (main env w)) = stdin (world_of (main_try env w)).
Proof.
  unfold main, try_except.
  destruct (main_try env w) as [[] w1|e w1|w1]; try by split.
  by destruct (isinstance_Exception e).
Qed.

(** What is left of [main] once the model is loaded. *)
Lemma main_try_loaded (env : Env) (w : World) (model : Model) (dl : N) :
  whisper_load_model env "medium" = Finishes dl (inr model) ->
  exists w1,
    main_try env w =
      (audio_path <- input "Enter the path to your audio file: ";;
       is_file <- Path_is_file env audio_path;;
       if negb is_file then
         logging_error ("Audio file '" +:+ audio_path +:+ "' does not exist.")
       else
         result <- transcribe_audio_default model audio_path;;
         save_transcription env result "outputfile.txt") w1 /\
    files w1 = files w /\ stdin w1 = stdin w /\
    trace w1 = trace w ++ [EvLoadModel "medium"] /\
    clock w1 = clock w + Z.of_N dl /\
    log w1 = log w ++
      [(INFO, "Model 'medium' loaded successfully.");
       (INFO, "Time taken to load model: " +:+ fmt_2f (Z.of_N dl) +:+ " seconds")].
Proof.
  intros Hload.
  destruct (load_model_ok env "medium" w dl model Hload)
    as (w1 & Hrun & Hrest).
  exists w1. split; [|exact Hrest].
  unfold main_try. cbv zeta. unfold bind at 1. by rewrite Hrun.
Qed.

(** What is left of [main] once the path has been found to be a file. *)
Lemma main_try_validated (env : Env) (w : World) (model : Model) (dl : N)
  (p audio : string) (rest : list keystroke) :
  whisper_load_model env "medium" = Finishes dl (inr model) ->
  stdin w = Line p :: rest ->
  files w !! p = Some audio ->
  exists w2,
    main_try env w =
      (result <- transcribe_audio model p 300;;
       save_transcription env result "outputfile.txt") w2 /\
    files w2 = files w /\ stdin w2 = rest /\
    trace w2 = trace w ++
      [EvLoadModel "medium"; EvInput "Enter the path to your audio file: ";
       EvIsFile p true] /\
    clock w2 = clock w + Z.of_N dl /\
    log w2 = log w ++
      [(INFO, "Model 'medium' loaded successfully.");
       (INFO, "Time taken to load model: " +:+ fmt_2f (Z.of_N dl) +:+ " seconds")].
Proof.
  intros Hload Hin Hfile.
  destruct (main_try_loaded env w model dl Hload)
    as (w1 & -> & Hf1 & Hs1 & Ht1 & Hc1 & Hl1).
  unfold bind at 1, input. rewrite Hs1, Hin.
  unfold bind at 1, Path_is_file. simpl. rewrite Hf1, Hfile.
  change (negb true) with false. cbv beta iota.
  eexists. split; [reflexivity|]. simpl.
  split_and!; try assumption; try reflexivity.
  rewrite Ht1. by rewrite <- !app_assoc.
Qed.

Lemma quiet_quiet_but (p : string) (w w' : World) : quiet w w' -> quiet_but p w w'.
Proof. intros [Hf Hs]. split; [|exact Hs]. intros q _. by rewrite Hf. Qed.

(** Once the prompt is answered, no more keyboard input is read. *)
Lemma main_after_prompt_quiet_but (env : Env) (model : Model) (audio_path : string) :
  keeps (quiet_but "outputfile.txt")
    (is_file <- Path_is_file env audio_path;;
     if negb is_file then
       logging_error ("Audio file '" +:+ audio_path +:+ "' does not exist.")
     else
       result <- transcribe_audio_default model audio_path;;
       save_transcription env result "outputfile.txt").
Proof.
  unfold transcribe_audio_default. keeps_steps.
  all: try (apply (keeps_weaken quiet); [apply quiet_quiet_but|];
            apply transcribe_audio_quiet).
  all: try apply save_transcription_quiet_but.
  all: keeps_call; by split.
Qed.

(** A library call that adds at most one event, and none on another file. *)
Ltac opens_only_call :=
  first [ by (exists []; rewrite app_nil_r)
        | by (eexists [_]; split; [reflexivity|repeat constructor]) ].

Lemma load_model_opens_only (env : Env) (model_name p : string) :
  keeps (opens_only p) (load_model env model_name).
Proof.
  unfold load_model. keeps_steps; keeps_call; opens_only_call.
Qed.

Lemma transcribe_audio_opens_only
  (model : Model) (audio_path : string) (timeout : Z) (p : string) :
  keeps (opens_only p) (transcribe_audio model audio_path timeout).
Proof.
  unfold transcribe_audio. keeps_steps; keeps_call; opens_only_call.
Qed.

(** The calls of the Writer: the open; then, if it succeeded, at most one
    write, of the text, and the close. *)
Lemma save_transcription_calls
  (env : Env) (result : dict) (output_file : string) (w : World) :
  trace (world_of (save_transcription env result output_file w)) =
    trace w ++
    EvOpen output_file ::
    match os_open_error env output_file with
    | Some _ => []
    | None =>
        match result !! "text" with
        | Some (VStr t) => [EvWrite output_file t; EvClose output_file]
        | _ => [EvClose output_file]
        end
    end.
Proof.
  sv_unfold.
  destruct (os_open_error env output_file) as [e0|]; simpl.
  { by destruct (isinstance_Exception e0). }
  destruct (result !! "text") as [[t|ty]|]; simpl.
  - destruct (os_write_error env output_file t) as [[e0 written]|]; simpl;
      [destruct (isinstance_Exception e0)|]; simpl; by rewrite <- !app_assoc.
  - by rewrite <- !app_assoc.
  - by rewrite <- !app_assoc.
Qed.

Lemma save_transcription_opens_only
  (env : Env) (result : dict) (output_file : string) :
  keeps (opens_only output_file) (save_transcription env result output_file).
Proof.
  intros w. eexists. split; [apply save_transcription_calls|].
  destruct (os_open_error env output_file); [by repeat constructor|].
  destruct (result !! "text") as [[t|ty]|]; by repeat constructor.
Qed.

Lemma main_opens_only (env : Env) : keeps (opens_only "outputfile.txt") (main env).
Proof.
  unfold main, main_try, transcribe_audio_default. keeps_steps.
  all: try apply load_model_opens_only.
  all: try apply transcribe_audio_opens_only.
  all: try apply save_transcription_opens_only.
  all: keeps_call; opens_only_call.
Qed.

(** When a run of [main] has changed the file system, every stage before the
    write went through. *)
Lemma main_changed_files_inv (env : Env) (w : World) :
  files (world_of (main env w)) <> files w ->
  exists model dl p rest audio d r,
    whisper_load_model env "medium" = Finishes dl (inr model) /\
    stdin w = Line p :: rest /\
    files w !! p = Some audio /\
    transcribe model p (Some audio) = Finishes d (inr r) /\
    Z.of_N d <= 100 * 300 /\
    os_open_error env "outputfile.txt" = None.
Proof.
  intros Hchanged.
  destruct (main_keeps_files env w) as [Hmain _].
  destruct (whisper_load_model env "medium") as [dl [e|model]|] eqn:Hload.
  - exfalso. apply Hchanged. rewrite Hmain.
    destruct (load_model_fails env "medium" w dl e Hload) as (w1 & Hrun & Hf1 & _).
    unfold main_try. cbv zeta. unfold bind at 1. by rewrite Hrun.
  - destruct (stdin w) as [|[p|] rest] eqn:Hin.
    + exfalso. apply Hchanged. rewrite Hmain.
      destruct (main_try_loaded env w model dl Hload) as (w1 & -> & Hf1 & Hs1 & _).
      unfold bind at 1, input. by rewrite Hs1, Hin.
    + destruct (files w !! p) as [audio|] eqn:Hfile.
      2:{ exfalso. apply Hchanged.
          destruct (os_stat_error env p) as [msg|] eqn:Hstat.
          - destruct (main_check_fails env w model dl p msg rest
                        Hload Hin Hfile Hstat) as (w' & -> & Hf & _).
            exact Hf.
          - destruct (main_not_a_file env w model dl p rest
                        Hload Hin Hfile Hstat) as (w' & -> & Hf & _).
            exact Hf. }
      destruct (main_try_validated env w model dl p audio rest Hload Hin Hfile)
        as (w2 & Htry & Hf2 & _).
      assert (Hsame : files w2 !! p = Some audio) by (by rewrite Hf2).
      destruct (transcribe model p (Some audio)) as [d [e|r]|] eqn:Hjob.
      * exfalso. apply Hchanged. rewrite Hmain, Htry. unfold bind at 1.
        destruct (Z.le_gt_cases (Z.of_N d) (Z.max 0 (100 * 300))) as [Hd|Hd].
        -- destruct (transcribe_audio_engine_fails model p 300 w2 d e)
             as (w3 & -> & Hf3 & _); [by rewrite Hsame|exact Hd|].
           simpl. congruence.
        -- destruct (transcribe_audio_late model p 300 w2 d (inl e))
             as (w3 & -> & Hf3 & _); [by rewrite Hsame|exact Hd|].
           simpl. congruence.
      * destruct (Z.le_gt_cases (Z.of_N d) (Z.max 0 (100 * 300))) as [Hd|Hd].
        -- destruct (os_open_error env "outputfile.txt") as [e|] eqn:Hopen.
           ++ exfalso. apply Hchanged. rewrite Hmain, Htry. unfold bind at 1.
              destruct (transcribe_audio_in_time model p 300 w2 d r)
                as (w3 & -> & Hf3 & _); [by rewrite Hsame|exact Hd|].
              destruct (save_transcription_open_fails env r "outputfile.txt" e
                          w3 Hopen) as (w4 & -> & Hf4).
              simpl. congruence.
           ++ exists model, dl, p, rest, audio, d, r.
              split_and!; first [reflexivity|assumption|lia].
        -- exfalso. apply Hchanged. rewrite Hmain, Htry. unfold bind at 1.
           destruct (transcribe_audio_late model p 300 w2 d (inr r))
             as (w3 & -> & Hf3 & _); [by rewrite Hsame|exact Hd|].
           simpl. congruence.
      * exfalso. apply Hchanged. rewrite Hmain, Htry. unfold bind at 1.
        destruct (transcribe_audio_never model p 300 w2)
          as (w3 & -> & Hf3 & _); [by rewrite Hsame|].
        simpl. congruence.
    + exfalso. apply Hchanged. rewrite Hmain.
      destruct (main_try_loaded env w model dl Hload) as (w1 & -> & Hf1 & Hs1 & _).
      unfold bind at 1, input. by rewrite Hs1, Hin.
  - exfalso. apply Hchanged. rewrite Hmain.
    destruct (load_model_never env "medium" w Hload) as (w1 & Hrun & Hf1 & _).
    unfold main_try. cbv zeta. unfold bind at 1. by rewrite Hrun.
Qed.

(** ** The claims *)

(** *** Transcription Runner *)

(** C1 (what the code does instead). When the engine needs longer than the
    timeout, [transcribe_audio] does raise [TimeoutError], and not before the
    deadline; but it hands control back only when the worker has finished its
    job, [d] after the start however large [d] is, because leaving the
    executor block joins the worker.  The "timed out after ... seconds"
    record is written at that late moment too. *)
Theorem transcribe_audio_timeout_joins_worker
  (model : Model) (audio_path : string) (timeout : Z) (w : World)
  (d : N) (r : exn + dict) :
  transcribe model audio_path (files w !! audio_path) = Finishes d r ->
  Z.max 0 (100 * timeout) < Z.of_N d ->
  exists w',
    transcribe_audio model audio_path timeout w
    = Raises (mkExn TimeoutError "") w' /\
    clock w' = clock w + Z.of_N d /\
    clock w + Z.max 0 (100 * timeout) < clock w' /\
    log w' = log w ++
      [(ERROR, "Transcription timed out after " +:+ pretty timeout +:+ " seconds.")].
Proof.
  intros Hjob Hd.
  destruct (transcribe_audio_late model audio_path timeout w d r Hjob Hd)
    as (w' & Hrun & _ & _ & _ & Hclock & Hlog).
  exists w'. repeat split; [exact Hrun|exact Hclock|lia|exact Hlog].
Qed.

(** With the default 300 s and an engine that needs 1000 s, the caller gets
    the [TimeoutError] 1000 s after the call. *)
Lemma transcribe_audio_timeout_joins_worker_witness :
  exists w',
    transcribe_audio Sample.slow_engine "a.wav" 300 Sample.world
    = Raises (mkExn TimeoutError "") w' /\
    clock w' = clock Sample.world + Z.of_N 100000 /\
    clock Sample.world + Z.max 0 (100 * 300) < clock w' /\
    log w' = log Sample.world ++
      [(ERROR, "Transcription timed out after " +:+ pretty 300 +:+ " seconds.")].
Proof.
  apply (transcribe_audio_timeout_joins_worker Sample.slow_engine "a.wav" 300
           Sample.world 100000 (inr {[ "text" := VStr "hello" ]}));
    [reflexivity|reflexivity].
Defined.

(** No margin bounds the delay: for every margin some engine keeps the caller
    waiting longer than the timeout plus that margin. *)
Lemma transcribe_audio_overrun_unbounded
  (margin : N) (audio_path : string) (timeout : Z) (w : World) :
  exists model w',
    transcribe_audio model audio_path timeout w
    = Raises (mkExn TimeoutError "") w' /\
    clock w + Z.max 0 (100 * timeout) + Z.of_N margin < clock w'.
Proof.
  set (d := Z.to_N (Z.max 0 (100 * timeout) + Z.of_N margin + 1)).
  exists (mkModel (fun _ _ => Finishes d (inl (mkExn OSError "")))).
  destruct (transcribe_audio_late
              (mkModel (fun _ _ => Finishes d (inl (mkExn OSError ""))))
              audio_path timeout w d (inl (mkExn OSError "")))
    as (w' & Hrun & _ & _ & _ & Hclock & _).
  - reflexivity.
  - subst d. lia.
  - exists w'. split; [exact Hrun|]. subst d. lia.
Qed.

(** An engine that never finishes keeps the caller forever, timeout or not. *)
Lemma transcribe_audio_never_returns
  (model : Model) (audio_path : string) (timeout : Z) (w : World) :
  transcribe model audio_path (files w !! audio_path) = NeverFinishes ->
  exists w', transcribe_audio model audio_path timeout w = Hangs w'.
Proof.
  intros Hjob.
  destruct (transcribe_audio_never model audio_path timeout w Hjob)
    as (w' & Hrun & _).
  eauto.
Qed.

(** C7. Called without a timeout, [transcribe_audio] uses 300 seconds: an
    engine that is done within 300 s has its result returned, one that needs
    longer gets a [TimeoutError].  Whenever [transcribe_audio] returns, with
    any timeout, the mapping it returns is the one the engine produced. *)
Theorem transcribe_audio_default_and_result
  (model : Model) (audio_path : string) (w : World) :
  transcribe_audio_default model audio_path w
  = transcribe_audio model audio_path 300 w /\
  (forall d r,
     transcribe model audio_path (files w !! audio_path) = Finishes d (inr r) ->
     Z.of_N d <= 100 * 300 ->
     exists w', transcribe_audio_default model audio_path w = Returns r w') /\
  (forall d r,
     transcribe model audio_path (files w !! audio_path) = Finishes d r ->
     100 * 300 < Z.of_N d ->
     exists w', transcribe_audio_default model audio_path w
                = Raises (mkExn TimeoutError "") w') /\
  (forall timeout r w',
     transcribe_audio model audio_path timeout w = Returns r w' ->
     exists d,
       transcribe model audio_path (files w !! audio_path) = Finishes d (inr r)).
Proof.
  split; [reflexivity|].
  split; [|split].
  - intros d r Hjob Hd.
    destruct (transcribe_audio_in_time model audio_path 300 w d r Hjob)
      as (w' & Hrun & _); [lia|].
    exists w'. exact Hrun.
  - intros d r Hjob Hd.
    destruct (transcribe_audio_late model audio_path 300 w d r Hjob)
      as (w' & Hrun & _); [lia|].
    exists w'. exact Hrun.
  - intros timeout r w' Hrun.
    destruct (transcribe_audio_returns_inv model audio_path timeout w w' r Hrun)
      as (d & Hjob & _).
    exists d. exact Hjob.
Qed.

Lemma transcribe_audio_default_and_result_witness :
  exists w',
    transcribe_audio_default Sample.engine "a.wav" Sample.world
    = Returns {[ "text" := VStr "hello"; "language" := VStr "en" ]} w'.
Proof.
  destruct (transcribe_audio_default_and_result Sample.engine "a.wav"
              Sample.world) as (_ & Hin_time & _).
  apply (Hin_time 1234%N); [reflexivity|lia].
Defined.

(** *** Result Writer *)

(** C3. When the result has a "text" string and the operating system lets
    the output file be opened and written, [save_transcription] returns
    normally and the file at the path holds exactly that text, whatever it
    held before, with nothing before or after it; every other file is as it
    was. *)
Theorem save_transcription_writes_text
  (env : Env) (result : dict) (output_file t : string) (w : World) :
  result !! "text" = Some (VStr t) ->
  os_open_error env output_file = None ->
  os_write_error env output_file t = None ->
  exists w',
    save_transcription env result output_file w = Returns tt w' /\
    files w' !! output_file = Some t /\
    files w' = <[output_file := t]> (files w) /\
    (forall p, p <> output_file -> files w' !! p = files w !! p).
Proof.
  intros Htext Hopen Hwrite.
  destruct (save_transcription_ok env result output_file t w Htext Hopen Hwrite)
    as (w' & Hsave & Hfiles & _).
  exists w'. split; [exact Hsave|]. rewrite Hfiles.
  split; [apply lookup_insert_eq|].
  split; [reflexivity|].
  intros p Hp. by rewrite lookup_insert_ne.
Qed.

Lemma save_transcription_writes_text_witness :
  exists w',
    save_transcription Sample.env {[ "text" := VStr "hello" ]} "outputfile.txt"
      Sample.world = Returns tt w' /\
    files w' !! "outputfile.txt" = Some "hello" /\
    files w' = <["outputfile.txt" := "hello"]> (files Sample.world) /\
    (forall p, p <> "outputfile.txt" -> files w' !! p = files Sample.world !! p).
Proof.
  apply (save_transcription_writes_text Sample.env {[ "text" := VStr "hello" ]}
           "outputfile.txt" "hello" Sample.world); reflexivity.
Defined.

(** C8 (as stated, refuted). A transcript with a bare carriage return does
    not come back as it was saved: the file holds it unchanged, but reading
    the file in text mode turns the carriage return into a line feed. *)
Lemma saved_carriage_return_reads_back_as_newline :
  exists w',
    (save_transcription Sample.env {[ "text" := VStr Sample.text_with_CR ]}
       "outputfile.txt";;;
     read_text "outputfile.txt") Sample.world
    = Returns ("a" +:+ String LF "b") w' /\
    files w' !! "outputfile.txt" = Some Sample.text_with_CR /\
    "a" +:+ String LF "b" <> Sample.text_with_CR.
Proof. eexists. split; [reflexivity|]. split; [reflexivity|discriminate]. Qed.

(** C8 (amended). Round trip: saving a result that has a "text" string and
    reading the output file back yields that string with every carriage
    return, together with the line feed after it if there is one, replaced by
    a single line feed; for a text without carriage returns this is exactly
    the text that was saved. *)
Theorem save_then_read_roundtrip
  (env : Env) (result : dict) (output_file t : string) (w : World) :
  result !! "text" = Some (VStr t) ->
  os_open_error env output_file = None ->
  os_write_error env output_file t = None ->
  exists w',
    (save_transcription env result output_file;;; read_text output_file) w
    = Returns (universal_newlines t) w' /\
    (no_CR t = true ->
     (save_transcription env result output_file;;; read_text output_file) w
     = Returns t w').
Proof.
  intros Htext Hopen Hwrite.
  destruct (save_transcription_ok env result output_file t w Htext Hopen Hwrite)
    as (w1 & Hsave & Hfiles & _).
  assert (Hread : (save_transcription env result output_file;;;
                   read_text output_file) w = Returns (universal_newlines t) w1).
  { unfold bind. rewrite Hsave.
    unfold read_text. by rewrite Hfiles, lookup_insert_eq. }
  exists w1. split; [exact Hread|].
  intros Hcr. rewrite Hread. by rewrite universal_newlines_no_CR.
Qed.

Lemma save_then_read_roundtrip_witness :
  exists w',
    (save_transcription Sample.env {[ "text" := VStr "hello" ]} "outputfile.txt";;;
     read_text "outputfile.txt") Sample.world
    = Returns "hello" w'.
Proof.
  destruct (save_then_read_roundtrip Sample.env {[ "text" := VStr "hello" ]}
              "outputfile.txt" "hello" Sample.world)
    as (w' & _ & Hexact); [reflexivity..|].
  exists w'. apply Hexact. reflexivity.
Defined.

(** C10. A result without a "text" key makes [save_transcription] raise
    [KeyError('text')], and it does so after the output file was opened for
    writing: the file is left empty (created, or truncated), nothing is
    written to it, the handle is closed and the failure is logged. *)
Theorem save_transcription_missing_text_truncates
  (env : Env) (result : dict) (output_file : string) (w : World) :
  result !! "text" = None ->
  os_open_error env output_file = None ->
  exists w',
    save_transcription env result output_file w
    = Raises (mkExn KeyError "'text'") w' /\
    files w' !! output_file = Some "" /\
    files w' = <[output_file := ""]> (files w) /\
    trace w' = trace w ++ [EvOpen output_file; EvClose output_file] /\
    log w' = log w ++
      [(ERROR, "Failed to save transcription to '" +:+ output_file +:+
               "'. Error: 'text'")].
Proof.
  intros Htext Hopen.
  destruct (save_transcription_no_text env result output_file w Htext Hopen)
    as (w' & Hsave & Hfiles & _ & Htrace & _ & Hlog).
  exists w'. split; [exact Hsave|]. rewrite Hfiles.
  split; [apply lookup_insert_eq|].
  split; [reflexivity|].
  split; [exact Htrace|exact Hlog].
Qed.

(** An older transcript in [outputfile.txt] is gone after the failed save. *)
Lemma save_transcription_missing_text_truncates_witness :
  exists w',
    save_transcription Sample.env {[ "language" := VStr "en" ]} "outputfile.txt"
      Sample.world
    = Raises (mkExn KeyError "'text'") w' /\
    files Sample.world !! "outputfile.txt" = Some "old text" /\
    files w' !! "outputfile.txt" = Some "".
Proof.
  destruct (save_transcription_missing_text_truncates Sample.env
              {[ "language" := VStr "en" ]} "outputfile.txt" Sample.world)
    as (w' & Hsave & Hempty & _); [reflexivity|reflexivity|].
  exists w'. split; [exact Hsave|]. split; [reflexivity|exact Hempty].
Defined.

(** *** Driver *)

(** C2 (as stated, refuted). In a run that goes all the way, the call of the
    Loader is the first event of the trace; the prompt and the check of the
    path come after it, so not every stage call comes after a validation. *)
Lemma main_loads_before_validating :
  trace (world_of (main Sample.env Sample.world)) =
    [EvLoadModel "medium"; EvInput "Enter the path to your audio file: ";
     EvIsFile "a.wav" true; EvSubmit "a.wav"; EvOpen "outputfile.txt";
     EvWrite "outputfile.txt" "hello"; EvClose "outputfile.txt"] /\
  precedes is_validated is_stage (trace (world_of (main Sample.env Sample.world)))
  = false.
Proof. split; reflexivity. Qed.

(** C2 (amended). In every run of [main] the first call out of the program is
    the Loader's, before the operator is asked for the path and before the
    path is checked; calls of the Runner and of the Writer happen only after
    the path was checked and found to be a regular file. *)
Theorem main_load_then_validate_then_run (env : Env) (w : World) :
  exists evs,
    trace (world_of (main env w)) = trace w ++ EvLoadModel "medium" :: evs /\
    precedes is_load is_prompt_or_check (EvLoadModel "medium" :: evs) = true /\
    precedes is_validated is_run_or_write (EvLoadModel "medium" :: evs) = true.
Proof.
  destruct (main_try_trace env w) as (evs & Htrace & Hvalid).
  exists evs. rewrite main_keeps_trace.
  split; [exact Htrace|]. split; [reflexivity|exact Hvalid].
Qed.

(** C4 (as stated, refuted). A name of 300 characters refers to no existing
    regular file, but on a file system that refuses such names the check of
    the path fails with an [OSError]: the Driver logs that error through its
    top-level handler, and no record says that the audio file does not
    exist. *)
Lemma main_long_name_not_reported_missing :
  files Sample.world_long_name !! Sample.long_name = None /\
  exists w',
    main Sample.env_name_max Sample.world_long_name = Returns tt w' /\
    log w' =
      [(INFO, "Model 'medium' loaded successfully.");
       (INFO, "Time taken to load model: 2.50 seconds");
       (ERROR, "An error occurred: [Errno 36] File name too long: '" +:+
               Sample.long_name +:+ "'")] /\
    last (log w') <>
      Some (ERROR, "Audio file '" +:+ Sample.long_name +:+ "' does not exist.").
Proof.
  split; [reflexivity|].
  eexists. split; [reflexivity|]. split; [reflexivity|].
  vm_compute. discriminate.
Qed.

(** C4 (amended). When the operator supplies a path that is not an existing
    regular file, [main] returns normally; the Runner and the Writer are not
    called and the file system is as before, so [outputfile.txt] is untouched
    if it was there and absent if it was not.  The last log record is an
    ERROR: that the audio file does not exist when the check of the path
    answers no, and "An error occurred: ..." with the message of the
    [OSError] when the check itself fails. *)
Theorem main_missing_audio_leaves_output
  (env : Env) (w : World) (model : Model) (dl : N) (p : string)
  (rest : list keystroke) :
  whisper_load_model env "medium" = Finishes dl (inr model) ->
  stdin w = Line p :: rest ->
  files w !! p = None ->
  exists w',
    main env w = Returns tt w' /\
    files w' = files w /\
    files w' !! "outputfile.txt" = files w !! "outputfile.txt" /\
    last (log w') =
      Some (ERROR,
            match os_stat_error env p with
            | None => "Audio file '" +:+ p +:+ "' does not exist."
            | Some msg => "An error occurred: " +:+ msg
            end) /\
    trace w' = trace w ++
      [EvLoadModel "medium"; EvInput "Enter the path to your audio file: ";
       match os_stat_error env p with
       | None => EvIsFile p false
       | Some _ => EvIsFileError p
       end].
Proof.
  intros Hload Hin Hfile.
  destruct (os_stat_error env p) as [msg|] eqn:Hstat.
  - destruct (main_check_fails env w model dl p msg rest Hload Hin Hfile Hstat)
      as (w' & Hmain & Hfiles & _ & Htrace & _ & Hlog).
    exists w'. split; [exact Hmain|]. split; [exact Hfiles|].
    split; [by rewrite Hfiles|]. split; [|exact Htrace].
    rewrite Hlog.
    change (log w ++ [?a; ?b; ?c]) with (log w ++ [a; b] ++ [c]).
    by rewrite app_assoc, last_snoc.
  - destruct (main_not_a_file env w model dl p rest Hload Hin Hfile Hstat)
      as (w' & Hmain & Hfiles & _ & Htrace & _ & Hlog).
    exists w'. split; [exact Hmain|]. split; [exact Hfiles|].
    split; [by rewrite Hfiles|]. split; [|exact Htrace].
    rewrite Hlog.
    change (log w ++ [?a; ?b; ?c]) with (log w ++ [a; b] ++ [c]).
    by rewrite app_assoc, last_snoc.
Qed.

Lemma main_missing_audio_leaves_output_witness :
  exists w',
    main Sample.env Sample.world_typo = Returns tt w' /\
    files w' = files Sample.world_typo /\
    files w' !! "outputfile.txt" = files Sample.world_typo !! "outputfile.txt" /\
    last (log w') = Some (ERROR, "Audio file 'b.wav' does not exist.") /\
    trace w' = trace Sample.world_typo ++
      [EvLoadModel "medium"; EvInput "Enter the path to your audio file: ";
       EvIsFile "b.wav" false].
Proof.
  apply (main_missing_audio_leaves_output Sample.env Sample.world_typo
           Sample.engine 250 "b.wav" []); reflexivity.
Defined.

(** C5 (as stated, refuted). The [KeyboardInterrupt] of an operator who
    presses Ctrl-C at the prompt is not an [Exception]; it passes the handler
    of [main] unlogged and leaves [main] as a raised exception. *)
Lemma main_lets_KeyboardInterrupt_through :
  exists w',
    main Sample.env Sample.world_interrupt
    = Raises (mkExn KeyboardInterrupt "") w' /\
    log w' = [(INFO, "Model 'medium' loaded successfully.");
              (INFO, "Time taken to load model: 2.50 seconds")].
Proof. eexists. split; reflexivity. Qed.

(** C5 (amended). Every exception of class [Exception] that escapes the
    load-transcribe-save sequence is caught by [main], logged as
    "An error occurred: ..." with its message, and [main] returns normally;
    what [main] raises is never an [Exception], only an exception outside
    that class, which it passes on unlogged. *)
Theorem main_catches_every_Exception (env : Env) (w : World) :
  (forall e w1,
     main_try env w = Raises e w1 -> isinstance_Exception e = true ->
     main env w
     = Returns tt (add_log ERROR ("An error occurred: " +:+ exn_str e) w1)) /\
  (forall e w1,
     main_try env w = Raises e w1 -> isinstance_Exception e = false ->
     main env w = Raises e w1) /\
  (forall e w', main env w = Raises e w' -> isinstance_Exception e = false).
Proof.
  unfold main, try_except.
  destruct (main_try env w) as [[] w1|e w1|w1].
  - repeat split; intros; discriminate.
  - repeat split.
    + intros e' w' [= <- <-] He. by rewrite He.
    + intros e' w' [= <- <-] He. by rewrite He.
    + intros e' w'. destruct (isinstance_Exception e) eqn:He.
      * discriminate.
      * by intros [= <- _].
  - repeat split; intros; discriminate.
Qed.

(** A load that fails with an ordinary error ends in a log line and a normal
    return. *)
Lemma main_catches_every_Exception_witness :
  main Sample.env_no_weights Sample.world
  = Returns tt
      (mkWorld (files Sample.world) (stdin Sample.world)
         [(ERROR, "Failed to load the model 'medium'. Error: no weights");
          (ERROR, "An error occurred: no weights")]
         [EvLoadModel "medium"] 10).
Proof.
  destruct (main_catches_every_Exception
              Sample.env_no_weights Sample.world)
    as (Hcaught & _).
  rewrite (Hcaught (mkExn OSError "no weights")
             (mkWorld (files Sample.world) (stdin Sample.world)
                [(ERROR, "Failed to load the model 'medium'. Error: no weights")]
                [EvLoadModel "medium"] 10)); reflexivity.
Defined.

(** C9. Two runs of [main] on the same audio file, with the same engine,
    both end with [outputfile.txt] holding exactly the transcript: the second
    run replaces the content with an equal one, nothing is appended, and the
    file system after the second run is the one after the first. *)
Theorem main_twice_same_output
  (env : Env) (w : World) (model : Model) (dl d : N)
  (p audio t : string) (rest : list keystroke) (r : dict) :
  whisper_load_model env "medium" = Finishes dl (inr model) ->
  stdin w = Line p :: Line p :: rest ->
  files w !! p = Some audio ->
  p <> "outputfile.txt" ->
  transcribe model p (Some audio) = Finishes d (inr r) ->
  Z.of_N d <= 100 * 300 ->
  r !! "text" = Some (VStr t) ->
  os_open_error env "outputfile.txt" = None ->
  os_write_error env "outputfile.txt" t = None ->
  exists w1 w2,
    main env w = Returns tt w1 /\
    main env w1 = Returns tt w2 /\
    files w1 !! "outputfile.txt" = Some t /\
    files w2 !! "outputfile.txt" = Some t /\
    files w2 = files w1.
Proof.
  intros Hload Hin Hfile Hne Hjob Hd Htext Hopen Hwrite.
  destruct (main_success env w model dl d p audio t (Line p :: rest) r)
    as (w1 & Hrun1 & Hfiles1 & Hstdin1 & _); try (assumption || lia).
  assert (Hfile1 : files w1 !! p = Some audio).
  { rewrite Hfiles1. by rewrite lookup_insert_ne. }
  destruct (main_success env w1 model dl d p audio t rest r)
    as (w2 & Hrun2 & Hfiles2 & _); try (assumption || lia).
  exists w1, w2. split; [exact Hrun1|]. split; [exact Hrun2|].
  rewrite Hfiles2, Hfiles1.
  rewrite insert_insert_eq.
  split; [apply lookup_insert_eq|]. split; [apply lookup_insert_eq|reflexivity].
Qed.

Lemma main_twice_same_output_witness :
  exists w1 w2,
    main Sample.env Sample.world = Returns tt w1 /\
    main Sample.env w1 = Returns tt w2 /\
    files w1 !! "outputfile.txt" = Some "hello" /\
    files w2 !! "outputfile.txt" = Some "hello" /\
    files w2 = files w1.
Proof.
  apply (main_twice_same_output Sample.env Sample.world Sample.engine 250 1234
           "a.wav" "RIFF" "hello" []
           {[ "text" := VStr "hello"; "language" := VStr "en" ]});
    try reflexivity; [discriminate|lia].
Defined.

(** *** Failure handling in the three components *)




(** ** Further properties *)

(** *** Model Loader *)

(** X1. [load_model] returns an engine exactly when the library's load
    returned it: a load that succeeds gives back the library's engine, takes
    as long as the library call and leaves two INFO records, the second
    reporting that duration; and whenever [load_model] returns an engine, the
    library's load had succeeded with that engine. *)
Theorem load_model_reports_load_time
  (env : Env) (model_name : string) (w : World) :
  (forall d model,
     whisper_load_model env model_name = Finishes d (inr model) ->
     exists w',
       load_model env model_name w = Returns model w' /\
       clock w' = clock w + Z.of_N d /\
       log w' = log w ++
         [(INFO, "Model '" +:+ model_name +:+ "' loaded successfully.");
          (INFO, "Time taken to load model: " +:+ fmt_2f (Z.of_N d) +:+
                 " seconds")]) /\
  (forall model w',
     load_model env model_name w = Returns model w' ->
     exists d, whisper_load_model env model_name = Finishes d (inr model)).
Proof.
  split.
  - intros d model Hload.
    destruct (load_model_ok env model_name w d model Hload)
      as (w' & Hrun & _ & _ & _ & Hclock & Hlog).
    exists w'. split; [exact Hrun|]. split; [exact Hclock|exact Hlog].
  - intros model w'. apply load_model_returns_inv.
Qed.

Lemma load_model_reports_load_time_witness :
  exists w',
    load_model Sample.env "medium" Sample.world = Returns Sample.engine w' /\
    clock w' = clock Sample.world + Z.of_N 250 /\
    log w' = log Sample.world ++
      [(INFO, "Model '" +:+ "medium" +:+ "' loaded successfully.");
       (INFO, "Time taken to load model: " +:+ fmt_2f (Z.of_N 250) +:+
              " seconds")].
Proof.
  destruct (load_model_reports_load_time Sample.env "medium" Sample.world)
    as (Hsuccess & _).
  apply (Hsuccess 250%N Sample.engine). reflexivity.
Defined.

(** X2. However [load_model] ends (return, exception, or no end), the
    program has made exactly one call out, the load of the model that was
    asked for, and has read no keyboard input. *)
Theorem load_model_only_calls_the_loader
  (env : Env) (model_name : string) (w : World) :
  trace (world_of (load_model env model_name w))
  = trace w ++ [EvLoadModel model_name] /\
  stdin (world_of (load_model env model_name w)) = stdin w.
Proof.
  split; [apply load_model_trace|].
  by destruct (load_model_quiet env model_name w) as [_ Hstdin].
Qed.

(** X3. An exception that is not an [Exception] (Ctrl-C, [SystemExit])
    raised by the library's load, by the engine within the deadline, or by
    the open or the write of the output file leaves the component it arose
    in as the same exception, and the component writes no log record for
    it. *)
Theorem base_exceptions_pass_unlogged (env : Env) :
  (forall name w d e,
     whisper_load_model env name = Finishes d (inl e) ->
     isinstance_Exception e = false ->
     exists w', load_model env name w = Raises e w' /\ log w' = log w) /\
  (forall model audio_path timeout w d e,
     transcribe model audio_path (files w !! audio_path) = Finishes d (inl e) ->
     Z.of_N d <= Z.max 0 (100 * timeout) ->
     isinstance_Exception e = false ->
     exists w',
       transcribe_audio model audio_path timeout w = Raises e w' /\
       log w' = log w) /\
  (forall result output_file w e,
     os_open_error env output_file = Some e ->
     isinstance_Exception e = false ->
     exists w',
       save_transcription env result output_file w = Raises e w' /\
       log w' = log w) /\
  (forall result output_file t w e written,
     os_open_error env output_file = None ->
     result !! "text" = Some (VStr t) ->
     os_write_error env output_file t = Some (e, written) ->
     isinstance_Exception e = false ->
     exists w',
       save_transcription env result output_file w = Raises e w' /\
       log w' = log w).
Proof.
  split_and!.
  - intros name w d e Hload He.
    destruct (load_model_fails env name w d e Hload)
      as (w' & Hrun & _ & _ & _ & _ & Hlog).
    exists w'. split; [exact Hrun|]. by rewrite Hlog, He, app_nil_r.
  - intros model audio_path timeout w d e Hjob Hd He.
    destruct (transcribe_audio_engine_fails model audio_path timeout w d e Hjob Hd)
      as (w' & Hrun & _ & _ & _ & _ & Hlog).
    exists w'. split; [exact Hrun|]. rewrite Hlog, He.
    assert (Hte : isinstance_TimeoutError e = false).
    { unfold isinstance_Exception in He. unfold isinstance_TimeoutError.
      by destruct (exn_class e). }
    by rewrite Hte, app_nil_r.
  - intros result output_file w e Hopen He.
    destruct (save_transcription_open_fails env result output_file e w Hopen)
      as (w' & Hrun & _).
    exists w'. split; [exact Hrun|].
    rewrite (save_transcription_raises_log env result output_file w w' e Hrun).
    by rewrite He, app_nil_r.
  - intros result output_file t w e written Hopen Htext Hwrite He.
    destruct (save_transcription_write_fails env result output_file t e written
                w Htext Hopen Hwrite) as (w' & Hrun & _).
    exists w'. split; [exact Hrun|].
    rewrite (save_transcription_raises_log env result output_file w w' e Hrun).
    by rewrite He, app_nil_r.
Qed.

Lemma base_exceptions_pass_unlogged_witness :
  exists w',
    load_model Sample.env_interrupted "medium" Sample.world
    = Raises (mkExn KeyboardInterrupt "") w' /\
    log w' = log Sample.world.
Proof.
  destruct (base_exceptions_pass_unlogged Sample.env_interrupted)
    as (Hloader & _).
  apply (Hloader "medium" Sample.world 100%N (mkExn KeyboardInterrupt ""));
    reflexivity.
Defined.

(** *** Transcription Runner *)

(** X6. However [transcribe_audio] ends, it has made exactly one call out of
    the program, the submit of the job, and has changed no file and read no
    keyboard input. *)
Theorem transcribe_audio_touches_nothing
  (model : Model) (audio_path : string) (timeout : Z) (w : World) :
  files (world_of (transcribe_audio model audio_path timeout w)) = files w /\
  stdin (world_of (transcribe_audio model audio_path timeout w)) = stdin w /\
  trace (world_of (transcribe_audio model audio_path timeout w))
  = trace w ++ [EvSubmit audio_path].
Proof.
  destruct (transcribe_audio_quiet model audio_path timeout w) as [Hfiles Hstdin].
  split; [exact Hfiles|]. split; [exact Hstdin|].
  apply transcribe_audio_trace.
Qed.

(** *** Result Writer *)

(** X7. A result whose "text" is not a string makes [save_transcription]
    raise [TypeError] from [file.write], after the open: the output file is
    left empty and the failure is logged. *)
Theorem save_transcription_rejects_non_string
  (env : Env) (result : dict) (output_file ty : string) (w : World) :
  result !! "text" = Some (VObj ty) ->
  os_open_error env output_file = None ->
  exists w',
    save_transcription env result output_file w
    = Raises (mkExn TypeError ("write() argument must be str, not " +:+ ty)) w' /\
    files w' = <[output_file := ""]> (files w) /\
    trace w' = trace w ++ [EvOpen output_file; EvClose output_file] /\
    log w' = log w ++
      [(ERROR, "Failed to save transcription to '" +:+ output_file +:+
               "'. Error: write() argument must be str, not " +:+ ty)].
Proof.
  intros Htext Hopen. sv_unfold.
  rewrite Hopen. simpl. rewrite Htext. simpl.
  eexists. split; [reflexivity|]. simpl.
  split; [reflexivity|]. split; [by rewrite <- app_assoc|reflexivity].
Qed.

Lemma save_transcription_rejects_non_string_witness :
  exists w',
    save_transcription Sample.env {[ "text" := VObj "list" ]} "outputfile.txt"
      Sample.world
    = Raises (mkExn TypeError ("write() argument must be str, not " +:+ "list")) w' /\
    files w' = <["outputfile.txt" := ""]> (files Sample.world) /\
    trace w' = trace Sample.world ++
      [EvOpen "outputfile.txt"; EvClose "outputfile.txt"] /\
    log w' = log Sample.world ++
      [(ERROR, "Failed to save transcription to '" +:+ "outputfile.txt" +:+
               "'. Error: write() argument must be str, not " +:+ "list")].
Proof.
  apply (save_transcription_rejects_non_string Sample.env
           {[ "text" := VObj "list" ]} "outputfile.txt" "list" Sample.world);
    reflexivity.
Defined.

(** X8. When the output file cannot be opened, [save_transcription] raises
    the open's error without looking at the result; no file is created,
    truncated or written, and the only call made is the failed open. *)
Theorem save_transcription_open_failure_leaves_disk
  (env : Env) (result : dict) (output_file : string) (e : exn) (w : World) :
  os_open_error env output_file = Some e ->
  exists w',
    save_transcription env result output_file w = Raises e w' /\
    files w' = files w /\
    trace w' = trace w ++ [EvOpen output_file] /\
    log w' = log w ++
      (if isinstance_Exception e then
         [(ERROR, "Failed to save transcription to '" +:+ output_file +:+
                  "'. Error: " +:+ exn_str e)]
       else []).
Proof.
  intros Hopen. sv_unfold. rewrite Hopen. simpl.
  destruct (isinstance_Exception e); simpl;
    (eexists; split; [reflexivity|]); simpl;
    split_and!; try reflexivity; by rewrite app_nil_r.
Qed.

Lemma save_transcription_open_failure_leaves_disk_witness :
  exists w',
    save_transcription Sample.env_read_only {[ "text" := VStr "hello" ]}
      "outputfile.txt" Sample.world
    = Raises (mkExn OSError "Permission denied") w' /\
    files w' !! "outputfile.txt" = Some "old text".
Proof.
  destruct (save_transcription_open_failure_leaves_disk Sample.env_read_only
              {[ "text" := VStr "hello" ]} "outputfile.txt"
              (mkExn OSError "Permission denied") Sample.world)
    as (w' & Hrun & Hfiles & _); [reflexivity|].
  exists w'. split; [exact Hrun|]. by rewrite Hfiles.
Defined.

(** X9. Of the result mapping, [save_transcription] uses the "text" entry
    and nothing else: two results that agree on it (whatever their segments,
    language and other entries) are saved with the same outcome. *)
Theorem save_transcription_reads_only_text
  (env : Env) (result1 result2 : dict) (output_file : string) (w : World) :
  result1 !! "text" = result2 !! "text" ->
  save_transcription env result1 output_file w
  = save_transcription env result2 output_file w.
Proof.
  intros Htext. unfold save_transcription, dict_getitem.
  by rewrite Htext.
Qed.

Lemma save_transcription_reads_only_text_witness :
  save_transcription Sample.env
    {[ "text" := VStr "hello"; "language" := VStr "en" ]} "outputfile.txt"
    Sample.world
  = save_transcription Sample.env {[ "text" := VStr "hello" ]} "outputfile.txt"
      Sample.world.
Proof.
  apply (save_transcription_reads_only_text Sample.env
           {[ "text" := VStr "hello"; "language" := VStr "en" ]}
           {[ "text" := VStr "hello" ]} "outputfile.txt" Sample.world).
  reflexivity.
Defined.

(** X10. The last save wins: after saving one result and then another to the
    same path, the file holds the second text alone, as if the first save had
    not happened; saving the same result twice is the same as saving it
    once. *)
Theorem save_transcription_last_write_wins
  (env : Env) (result1 result2 : dict) (output_file t1 t2 : string) (w : World) :
  result1 !! "text" = Some (VStr t1) ->
  result2 !! "text" = Some (VStr t2) ->
  os_open_error env output_file = None ->
  os_write_error env output_file t1 = None ->
  os_write_error env output_file t2 = None ->
  exists w1 w2 w2',
    save_transcription env result1 output_file w = Returns tt w1 /\
    save_transcription env result2 output_file w1 = Returns tt w2 /\
    save_transcription env result2 output_file w = Returns tt w2' /\
    files w2 !! output_file = Some t2 /\
    files w2 = files w2'.
Proof.
  intros Htext1 Htext2 Hopen Hwrite1 Hwrite2.
  destruct (save_transcription_ok env result1 output_file t1 w
              Htext1 Hopen Hwrite1) as (w1 & Hrun1 & Hfiles1 & _).
  destruct (save_transcription_ok env result2 output_file t2 w1
              Htext2 Hopen Hwrite2) as (w2 & Hrun2 & Hfiles2 & _).
  destruct (save_transcription_ok env result2 output_file t2 w
              Htext2 Hopen Hwrite2) as (w2' & Hrun2' & Hfiles2' & _).
  exists w1, w2, w2'. split_and!; try assumption.
  - rewrite Hfiles2. apply lookup_insert_eq.
  - rewrite Hfiles2, Hfiles1, Hfiles2'. apply insert_insert_eq.
Qed.

Lemma save_transcription_last_write_wins_witness :
  exists w1 w2 w2',
    save_transcription Sample.env {[ "text" := VStr "first" ]} "outputfile.txt"
      Sample.world = Returns tt w1 /\
    save_transcription Sample.env {[ "text" := VStr "second" ]} "outputfile.txt"
      w1 = Returns tt w2 /\
    save_transcription Sample.env {[ "text" := VStr "second" ]} "outputfile.txt"
      Sample.world = Returns tt w2' /\
    files w2 !! "outputfile.txt" = Some "second" /\
    files w2 = files w2'.
Proof.
  apply (save_transcription_last_write_wins Sample.env
           {[ "text" := VStr "first" ]} {[ "text" := VStr "second" ]}
           "outputfile.txt" "first" "second" Sample.world); reflexivity.
Defined.

(** X11. Once the output file is open, [save_transcription] closes it again
    on every path, the failing ones included: its calls out of the program
    are the open, at most one write, of the result's text, and the close, all
    three on the output file. *)
Theorem save_transcription_always_closes
  (env : Env) (result : dict) (output_file : string) (w : World) :
  os_open_error env output_file = None ->
  exists written,
    trace (world_of (save_transcription env result output_file w))
    = trace w ++ [EvOpen output_file] ++ written ++ [EvClose output_file] /\
    written = match result !! "text" with
              | Some (VStr t) => [EvWrite output_file t]
              | _ => []
              end.
Proof.
  intros Hopen. eexists. split; [|reflexivity].
  rewrite save_transcription_calls, Hopen.
  by destruct (result !! "text") as [[t|ty]|].
Qed.

Lemma save_transcription_always_closes_witness :
  trace (world_of (save_transcription Sample.env {[ "language" := VStr "en" ]}
                     "outputfile.txt" Sample.world))
  = [EvOpen "outputfile.txt"; EvClose "outputfile.txt"].
Proof.
  destruct (save_transcription_always_closes Sample.env
              {[ "language" := VStr "en" ]} "outputfile.txt" Sample.world)
    as (written & -> & ->); reflexivity.
Defined.

(** X12. A save that fails for want of a "text" key leaves the file system
    exactly as a successful save of the empty transcript does: from the
    output file alone the two cannot be told apart. *)
Theorem failed_save_looks_like_empty_transcript
  (env : Env) (result result' : dict) (output_file : string) (w : World) :
  result !! "text" = None ->
  result' !! "text" = Some (VStr "") ->
  os_open_error env output_file = None ->
  os_write_error env output_file "" = None ->
  exists e w1 w2,
    save_transcription env result output_file w = Raises e w1 /\
    save_transcription env result' output_file w = Returns tt w2 /\
    files w1 = files w2.
Proof.
  intros Hnone Hempty Hopen Hwrite.
  destruct (save_transcription_no_text env result output_file w Hnone Hopen)
    as (w1 & Hrun1 & Hfiles1 & _).
  destruct (save_transcription_ok env result' output_file "" w
              Hempty Hopen Hwrite) as (w2 & Hrun2 & Hfiles2 & _).
  exists (mkExn KeyError "'text'"), w1, w2.
  split; [exact Hrun1|]. split; [exact Hrun2|]. congruence.
Qed.

Lemma failed_save_looks_like_empty_transcript_witness :
  exists e w1 w2,
    save_transcription Sample.env {[ "language" := VStr "en" ]} "outputfile.txt"
      Sample.world = Raises e w1 /\
    save_transcription Sample.env {[ "text" := VStr "" ]} "outputfile.txt"
      Sample.world = Returns tt w2 /\
    files w1 = files w2.
Proof.
  apply (failed_save_looks_like_empty_transcript Sample.env
           {[ "language" := VStr "en" ]} {[ "text" := VStr "" ]}
           "outputfile.txt" Sample.world); reflexivity.
Defined.

(** *** Driver *)

(** X13. When standard input is at its end, the prompt's [EOFError] is caught
    by [main]: it is logged, [main] returns normally, and the file system is
    as before. *)
Theorem main_end_of_input
  (env : Env) (w : World) (model : Model) (dl : N) :
  whisper_load_model env "medium" = Finishes dl (inr model) ->
  stdin w = [] ->
  exists w',
    main env w = Returns tt w' /\
    files w' = files w /\
    trace w' = trace w ++
      [EvLoadModel "medium"; EvInput "Enter the path to your audio file: "] /\
    last (log w') = Some (ERROR, "An error occurred: EOF when reading a line").
Proof.
  intros Hload Hin.
  destruct (main_try_loaded env w model dl Hload)
    as (w1 & Htry & Hf1 & Hs1 & Ht1 & _ & _).
  unfold main, try_except. rewrite Htry.
  unfold bind at 1, input. rewrite Hs1, Hin. simpl.
  eexists. split; [reflexivity|]. simpl.
  split; [exact Hf1|]. split; [rewrite Ht1; by rewrite <- app_assoc|].
  apply last_snoc.
Qed.

Lemma main_end_of_input_witness :
  exists w',
    main Sample.env Sample.world_eof = Returns tt w' /\
    files w' = files Sample.world_eof /\
    trace w' = trace Sample.world_eof ++
      [EvLoadModel "medium"; EvInput "Enter the path to your audio file: "] /\
    last (log w') = Some (ERROR, "An error occurred: EOF when reading a line").
Proof.
  apply (main_end_of_input Sample.env Sample.world_eof Sample.engine 250);
    reflexivity.
Defined.

(** X14. When the load fails with an [Exception], the failure is logged
    twice, once by the Loader and once by [main]; the operator is never
    prompted, no file is touched, and [main] returns normally. *)
Theorem main_load_failure_logged_twice
  (env : Env) (w : World) (dl : N) (e : exn) :
  whisper_load_model env "medium" = Finishes dl (inl e) ->
  isinstance_Exception e = true ->
  exists w',
    main env w = Returns tt w' /\
    files w' = files w /\
    stdin w' = stdin w /\
    trace w' = trace w ++ [EvLoadModel "medium"] /\
    log w' = log w ++
      [(ERROR, "Failed to load the model 'medium'. Error: " +:+ exn_str e);
       (ERROR, "An error occurred: " +:+ exn_str e)].
Proof.
  intros Hload He.
  destruct (load_model_fails env "medium" w dl e Hload)
    as (w1 & Hrun & Hf1 & Hs1 & Ht1 & _ & Hl1).
  unfold main, try_except, main_try. cbv zeta. unfold bind at 1.
  rewrite Hrun, He. unfold logging_error.
  eexists. split; [reflexivity|]. simpl.
  split_and!; try assumption.
  rewrite Hl1, He. by rewrite <- app_assoc.
Qed.

Lemma main_load_failure_logged_twice_witness :
  exists w',
    main Sample.env_no_weights Sample.world = Returns tt w' /\
    files w' = files Sample.world /\
    stdin w' = stdin Sample.world /\
    trace w' = trace Sample.world ++ [EvLoadModel "medium"] /\
    log w' = log Sample.world ++
      [(ERROR, "Failed to load the model 'medium'. Error: " +:+ "no weights");
       (ERROR, "An error occurred: " +:+ "no weights")].
Proof.
  apply (main_load_failure_logged_twice Sample.env_no_weights Sample.world 10
           (mkExn OSError "no weights")); reflexivity.
Defined.

(** X15. When the engine needs more than 300 seconds, [main] returns
    normally, but only once the engine has finished; the file system is as
    before, so an older [outputfile.txt] stays; the log ends with the
    Runner's timeout record and with "An error occurred: " followed by
    nothing, the message of a [TimeoutError] being empty. *)
Theorem main_timeout_keeps_old_output
  (env : Env) (w : World) (model : Model) (dl d : N) (p audio : string)
  (rest : list keystroke) (r : exn + dict) :
  whisper_load_model env "medium" = Finishes dl (inr model) ->
  stdin w = Line p :: rest ->
  files w !! p = Some audio ->
  transcribe model p (Some audio) = Finishes d r ->
  100 * 300 < Z.of_N d ->
  exists w',
    main env w = Returns tt w' /\
    files w' = files w /\
    clock w' = clock w + Z.of_N dl + Z.of_N d /\
    log w' = log w ++
      [(INFO, "Model 'medium' loaded successfully.");
       (INFO, "Time taken to load model: " +:+ fmt_2f (Z.of_N dl) +:+ " seconds");
       (ERROR, "Transcription timed out after 300 seconds.");
       (ERROR, "An error occurred: ")].
Proof.
  intros Hload Hin Hfile Hjob Hd.
  destruct (main_try_validated env w model dl p audio rest Hload Hin Hfile)
    as (w2 & Htry & Hf2 & _ & _ & Hc2 & Hl2).
  destruct (transcribe_audio_late model p 300 w2 d r)
    as (w3 & Hrun & Hf3 & _ & _ & Hc3 & Hl3).
  { by rewrite Hf2, Hfile. }
  { lia. }
  unfold main, try_except. rewrite Htry. unfold bind at 1. rewrite Hrun.
  simpl. unfold logging_error.
  eexists. split; [reflexivity|]. simpl.
  split_and!.
  - by rewrite Hf3.
  - by rewrite Hc3, Hc2.
  - rewrite Hl3, Hl2. by rewrite <- !app_assoc.
Qed.

Lemma main_timeout_keeps_old_output_witness :
  exists w',
    main Sample.env_slow Sample.world = Returns tt w' /\
    files w' = files Sample.world /\
    clock w' = clock Sample.world + Z.of_N 250 + Z.of_N 100000 /\
    log w' = log Sample.world ++
      [(INFO, "Model 'medium' loaded successfully.");
       (INFO, "Time taken to load model: " +:+ fmt_2f (Z.of_N 250) +:+ " seconds");
       (ERROR, "Transcription timed out after 300 seconds.");
       (ERROR, "An error occurred: ")].
Proof.
  apply (main_timeout_keeps_old_output Sample.env_slow Sample.world
           Sample.slow_engine 250 100000 "a.wav" "RIFF" [Line "a.wav"]
           (inr {[ "text" := VStr "hello" ]})); reflexivity.
Defined.

(** X16. When the engine never finishes, [main] never returns: the timeout
    expires, but the executor block then waits for the worker.  Nothing is
    logged about it and no file is touched. *)
Theorem main_hangs_on_stuck_engine
  (env : Env) (w : World) (model : Model) (dl : N) (p audio : string)
  (rest : list keystroke) :
  whisper_load_model env "medium" = Finishes dl (inr model) ->
  stdin w = Line p :: rest ->
  files w !! p = Some audio ->
  transcribe model p (Some audio) = NeverFinishes ->
  exists w',
    main env w = Hangs w' /\
    files w' = files w /\
    log w' = log w ++
      [(INFO, "Model 'medium' loaded successfully.");
       (INFO, "Time taken to load model: " +:+ fmt_2f (Z.of_N dl) +:+ " seconds")].
Proof.
  intros Hload Hin Hfile Hjob.
  destruct (main_try_validated env w model dl p audio rest Hload Hin Hfile)
    as (w2 & Htry & Hf2 & _ & _ & _ & Hl2).
  destruct (transcribe_audio_never model p 300 w2)
    as (w3 & Hrun & Hf3 & Hl3 & _).
  { by rewrite Hf2, Hfile. }
  unfold main, try_except. rewrite Htry. unfold bind at 1. rewrite Hrun.
  exists w3. split; [reflexivity|]. split; congruence.
Qed.

Lemma main_hangs_on_stuck_engine_witness :
  exists w',
    main Sample.env_stuck Sample.world = Hangs w' /\
    files w' = files Sample.world /\
    log w' = log Sample.world ++
      [(INFO, "Model 'medium' loaded successfully.");
       (INFO, "Time taken to load model: " +:+ fmt_2f (Z.of_N 250) +:+ " seconds")].
Proof.
  apply (main_hangs_on_stuck_engine Sample.env_stuck Sample.world
           Sample.stuck_engine 250 "a.wav" "RIFF" [Line "a.wav"]); reflexivity.
Defined.

(** X17. When the engine's result has no "text", [main] returns normally and
    [outputfile.txt] is left empty: the transcript of an earlier run is gone.
    The [KeyError] is logged by the Writer and again by [main]. *)
Theorem main_textless_result_empties_output
  (env : Env) (w : World) (model : Model) (dl d : N) (p audio : string)
  (rest : list keystroke) (r : dict) :
  whisper_load_model env "medium" = Finishes dl (inr model) ->
  stdin w = Line p :: rest ->
  files w !! p = Some audio ->
  transcribe model p (Some audio) = Finishes d (inr r) ->
  Z.of_N d <= 100 * 300 ->
  r !! "text" = None ->
  os_open_error env "outputfile.txt" = None ->
  exists w' older,
    main env w = Returns tt w' /\
    files w' = <["outputfile.txt" := ""]> (files w) /\
    files w' !! "outputfile.txt" = Some "" /\
    log w' = older ++
      [(ERROR, "Failed to save transcription to 'outputfile.txt'. Error: 'text'");
       (ERROR, "An error occurred: 'text'")].
Proof.
  intros Hload Hin Hfile Hjob Hd Htext Hopen.
  destruct (main_try_validated env w model dl p audio rest Hload Hin Hfile)
    as (w2 & Htry & Hf2 & _).
  destruct (transcribe_audio_in_time model p 300 w2 d r)
    as (w3 & Hrun & Hf3 & _).
  { by rewrite Hf2, Hfile. }
  { lia. }
  destruct (save_transcription_no_text env r "outputfile.txt" w3 Htext Hopen)
    as (w4 & Hsave & Hf4 & _ & _ & _ & Hl4).
  unfold main, try_except. rewrite Htry. unfold bind at 1.
  rewrite Hrun, Hsave. simpl. unfold logging_error.
  eexists. exists (log w3). split; [reflexivity|]. simpl.
  rewrite Hf4, Hf3, Hf2.
  split; [reflexivity|]. split; [apply lookup_insert_eq|].
  rewrite Hl4. by rewrite <- app_assoc.
Qed.

Lemma main_textless_result_empties_output_witness :
  exists w',
    main Sample.env_textless Sample.world = Returns tt w' /\
    files Sample.world !! "outputfile.txt" = Some "old text" /\
    files w' !! "outputfile.txt" = Some "".
Proof.
  destruct (main_textless_result_empties_output Sample.env_textless
              Sample.world Sample.textless_engine 250 1234 "a.wav" "RIFF"
              [Line "a.wav"] {[ "language" := VStr "en" ]})
    as (w' & older & Hrun & _ & Hempty & _); try reflexivity; [lia|].
  exists w'. split; [exact Hrun|]. split; [reflexivity|exact Hempty].
Defined.

(** X18. The only file [main] itself ever opens, writes or closes is
    [outputfile.txt]: in every run, however it ends, each open, write and
    close event of the trace is on that path; the audio path is handed to
    the engine and never opened by the program. *)
Theorem main_opens_only_output_file (env : Env) (w : World) :
  exists evs,
    trace (world_of (main env w)) = trace w ++ evs /\
    Forall (file_event_at "outputfile.txt") evs.
Proof. apply main_opens_only. Qed.

(** X19. [main] never writes [outputfile.txt] on speculation: if a run has
    changed what [outputfile.txt] holds, or created it, then the model was
    loaded, the operator named an existing file, the engine returned a result
    for it within 300 seconds, and [outputfile.txt] could be opened. *)
Theorem main_writes_output_only_after_transcription (env : Env) (w : World) :
  files (world_of (main env w)) !! "outputfile.txt"
  <> files w !! "outputfile.txt" ->
  exists model dl p rest audio d r,
    whisper_load_model env "medium" = Finishes dl (inr model) /\
    stdin w = Line p :: rest /\
    files w !! p = Some audio /\
    transcribe model p (Some audio) = Finishes d (inr r) /\
    Z.of_N d <= 100 * 300 /\
    os_open_error env "outputfile.txt" = None.
Proof.
  intros Hchanged. apply main_changed_files_inv.
  intros Hsame. apply Hchanged. by rewrite Hsame.
Qed.

Lemma main_writes_output_only_after_transcription_witness :
  exists model dl p rest audio d r,
    whisper_load_model Sample.env "medium" = Finishes dl (inr model) /\
    stdin Sample.world = Line p :: rest /\
    files Sample.world !! p = Some audio /\
    transcribe model p (Some audio) = Finishes d (inr r) /\
    Z.of_N d <= 100 * 300 /\
    os_open_error Sample.env "outputfile.txt" = None.
Proof.
  apply (main_writes_output_only_after_transcription Sample.env Sample.world).
  vm_compute. discriminate.
Defined.

(** X21. A run of [main] reads at most one answer from the keyboard, at the
    prompt; what the operator typed ahead after it is still there when [main]
    has ended. *)
Theorem main_reads_at_most_one_line (env : Env) (w : World) :
  stdin (world_of (main env w)) = stdin w \/
  exists k, stdin w = k :: stdin (world_of (main env w)).
Proof.
  set (w' := world_of (main env w)).
  assert (Hw' : stdin w' = stdin (world_of (main_try env w)))
    by apply main_keeps_files.
  clearbody w'. revert Hw'.
  unfold main_try. cbv zeta. unfold bind at 1.
  destruct (load_model_quiet env "medium" w) as [_ Hs1].
  destruct (load_model env "medium" w) as [model w1|e w1|w1]; simpl in Hs1;
    [|intros ->; left; exact Hs1..].
  unfold bind at 1, input.
  destruct (stdin w1) as [|[p|] rest] eqn:Hin.
  - intros ->. left. simpl. congruence.
  - destruct (main_after_prompt_quiet_but env model p
                (set_stdin rest
                   (add_event (EvInput "Enter the path to your audio file: ") w1)))
      as [_ Hs2].
    intros ->. right. exists (Line p). rewrite <- Hs1. by rewrite Hs2.
  - intros ->. right. exists Interrupt. simpl. congruence.
Qed.

(** X22. A run that goes through: with the model loaded, an existing audio
    file named at the prompt, a result with a "text" string in time and a
    writable output file, [main] returns normally having read one line,
    written the transcript, spent the loading and the transcription time, and
    logged five INFO records and no ERROR. *)
Theorem main_successful_run
  (env : Env) (w : World) (model : Model) (dl d : N)
  (p audio t : string) (rest : list keystroke) (r : dict) :
  whisper_load_model env "medium" = Finishes dl (inr model) ->
  stdin w = Line p :: rest ->
  files w !! p = Some audio ->
  transcribe model p (Some audio) = Finishes d (inr r) ->
  Z.of_N d <= 100 * 300 ->
  r !! "text" = Some (VStr t) ->
  os_open_error env "outputfile.txt" = None ->
  os_write_error env "outputfile.txt" t = None ->
  exists w',
    main env w = Returns tt w' /\
    files w' = <["outputfile.txt" := t]> (files w) /\
    stdin w' = rest /\
    clock w' = clock w + Z.of_N dl + Z.of_N d /\
    log w' = log w ++
      [(INFO, "Model 'medium' loaded successfully.");
       (INFO, "Time taken to load model: " +:+ fmt_2f (Z.of_N dl) +:+ " seconds");
       (INFO, "Transcription completed successfully.");
       (INFO, "Time taken to transcribe audio: " +:+ fmt_2f (Z.of_N d) +:+ " seconds");
       (INFO, "Transcription saved to 'outputfile.txt'.")].
Proof.
  intros Hload Hin Hfile Hjob Hd Htext Hopen Hwrite.
  destruct (main_success env w model dl d p audio t rest r)
    as (w' & Hrun & Hfiles & Hstdin & _ & Hclock & Hlog);
    try (assumption || lia).
  exists w'. split_and!; assumption.
Qed.

Lemma main_successful_run_witness :
  exists w',
    main Sample.env Sample.world = Returns tt w' /\
    files w' = <["outputfile.txt" := "hello"]> (files Sample.world) /\
    stdin w' = [Line "a.wav"] /\
    clock w' = clock Sample.world + Z.of_N 250 + Z.of_N 1234 /\
    log w' = log Sample.world ++
      [(INFO, "Model 'medium' loaded successfully.");
       (INFO, "Time taken to load model: " +:+ fmt_2f (Z.of_N 250) +:+ " seconds");
       (INFO, "Transcription completed successfully.");
       (INFO, "Time taken to transcribe audio: " +:+ fmt_2f (Z.of_N 1234) +:+ " seconds");
       (INFO, "Transcription saved to 'outputfile.txt'.")].
Proof.
  apply (main_successful_run Sample.env Sample.world Sample.engine 250 1234
           "a.wav" "RIFF" "hello" [Line "a.wav"]
           {[ "text" := VStr "hello"; "language" := VStr "en" ]});
    try reflexivity; lia.
Defined.
